(** * Authenticator: login, silent token renewal and redirect-loop guard

    A shallow embedding of the [Authenticator] class of
    [spa/src/plumbing/oauth/authenticator.ts]: [getAccessToken],
    [refreshAccessToken], [startLogin], [handleLoginResponse],
    [clearLoginState] and the private helpers they call.

    The class keeps its state in three places: the OIDC library's stores
    (the in-memory user store and the redirect-state store held in session
    storage), the private field [_loginTime], and the [isLoggedIn] flag of
    [HtmlStorageHelper].  The browser contributes the visible URL and the
    clock.  All of it is gathered in one record, [World], and every async
    method becomes a function from a [World] to a new [World] and an
    [Outcome]: a returned value or a thrown one.  State written before a
    throw stays written, as in JavaScript.

    A method is run from its call to its completion: what other callers or
    other tabs may do while it is suspended at an [await] is not part of
    the model.  The library's [storeUser] is called without [await] in the
    class; its write to the in-memory store happens before the call
    returns, so it is modelled as an immediate update.

    The OIDC library (oidc-client-ts), [ErrorFactory] and [ErrorCodes] are
    collaborators whose code is not part of the embedded file: they are
    parameters of the development. *)

From Stdlib Require Import ZArith List Bool Lia.
From stdpp Require Import base gmap strings.

Local Open Scope string_scope.
Local Open Scope Z_scope.

(** ** Data model *)

(** [OAuthConfiguration]: the fields the constructor and the methods read. *)
Record OAuthConfiguration := {
  provider : string;
  authority : string;
  clientId : string;
  redirectUri : string;
  postLogoutRedirectUri : string;
  scope : string;
  customLogoutEndpoint : string
}.

(** The [data] object that [startLogin] hands to the library as redirect
    state, and that comes back as [user.state]. *)
Record LoginData := { data_hash : string }.

Record Profile := {
  given_name : option string;
  family_name : option string
}.

(** The library's [User].  [refresh_token] is optional in the library's
    type; [user_state] is [None] when [user.state] is undefined. *)
Record User := {
  access_token : string;
  refresh_token : option string;
  profile : Profile;
  user_state : option LoginData
}.

(** [UIError], the application's error class: its stable code and the
    description of the cause it wraps. *)
Record UIError := {
  errorCode : string;
  details : string
}.

(** Any other thrown object: the library's error responses carry an
    [error] field, plain [Error]s do not. *)
Record JsError := {
  error : option string;
  message : string
}.

Inductive Thrown :=
| ThrownUIError (e : UIError)
| ThrownError (e : JsError).

(** [e.error] on a caught value of type [any]. *)
Definition error_field (e : Thrown) : option string :=
  match e with
  | ThrownError j => error j
  | ThrownUIError _ => None
  end.

(** Calls that leave the page's own memory: the library's network and
    redirect operations, and the replacement of the navigation entry.
    The most recent call is at the head of the trace. *)
Inductive Event :=
| EvSigninSilent
| EvSigninRedirect (data : LoginData)
| EvSigninRedirectCallback
| EvReplaceState (url : string).

Record World := {
  userStore : option User;
  stateStore : gmap string string;
  loginTime : option Z;
  isLoggedIn : bool;
  visible_query : list (string * string);
  visible_fragment : string;
  clock : Z;
  calls : list Event
}.

Definition set_userStore (u : option User) (w : World) : World :=
  {| userStore := u; stateStore := stateStore w; loginTime := loginTime w;
     isLoggedIn := isLoggedIn w; visible_query := visible_query w;
     visible_fragment := visible_fragment w; clock := clock w;
     calls := calls w |}.

Definition set_stateStore (s : gmap string string) (w : World) : World :=
  {| userStore := userStore w; stateStore := s; loginTime := loginTime w;
     isLoggedIn := isLoggedIn w; visible_query := visible_query w;
     visible_fragment := visible_fragment w; clock := clock w;
     calls := calls w |}.

Definition set_loginTime (t : option Z) (w : World) : World :=
  {| userStore := userStore w; stateStore := stateStore w; loginTime := t;
     isLoggedIn := isLoggedIn w; visible_query := visible_query w;
     visible_fragment := visible_fragment w; clock := clock w;
     calls := calls w |}.

Definition set_isLoggedIn (b : bool) (w : World) : World :=
  {| userStore := userStore w; stateStore := stateStore w;
     loginTime := loginTime w; isLoggedIn := b;
     visible_query := visible_query w;
     visible_fragment := visible_fragment w; clock := clock w;
     calls := calls w |}.

Definition set_visible (q : list (string * string)) (f : string) (w : World)
  : World :=
  {| userStore := userStore w; stateStore := stateStore w;
     loginTime := loginTime w; isLoggedIn := isLoggedIn w;
     visible_query := q; visible_fragment := f; clock := clock w;
     calls := calls w |}.

Definition set_clock (now : Z) (w : World) : World :=
  {| userStore := userStore w; stateStore := stateStore w;
     loginTime := loginTime w; isLoggedIn := isLoggedIn w;
     visible_query := visible_query w;
     visible_fragment := visible_fragment w; clock := now;
     calls := calls w |}.

Definition log (ev : Event) (w : World) : World :=
  {| userStore := userStore w; stateStore := stateStore w;
     loginTime := loginTime w; isLoggedIn := isLoggedIn w;
     visible_query := visible_query w;
     visible_fragment := visible_fragment w; clock := clock w;
     calls := ev :: calls w |}.

(** ** JavaScript truthiness *)

(** A string is truthy when it is not empty. *)
Definition truthy (s : string) : bool := negb (String.eqb s "").

(** [string | null | undefined]: the truthy content, if any. *)
Definition truthy_string (o : option string) : option string :=
  match o with
  | Some s => if truthy s then Some s else None
  | None => None
  end.

(** [number | null]: [null] and [0] are falsy. *)
Definition truthy_number (o : option Z) : option Z :=
  match o with
  | Some n => if n =? 0 then None else Some n
  | None => None
  end.

(** ** Effects: state and exceptions *)

Inductive Outcome (A : Type) :=
| Returned (a : A)
| Threw (e : Thrown).
Arguments Returned {A} a.
Arguments Threw {A} e.

Module Eff.
Section WithState.
Context {S : Type}.

(** A computation over a state [S]; [S] is [World], or a [World] paired
    with the local variables of a block. *)
Definition t (A : Type) : Type := S -> S * Outcome A.

Definition ret {A} (a : A) : t A := fun s => (s, Returned a).

Definition bind {A B} (m : t A) (k : A -> t B) : t B :=
  fun s =>
    match m s with
    | (s', Returned a) => k a s'
    | (s', Threw e) => (s', Threw e)
    end.

Definition throw {A} (e : Thrown) : t A := fun s => (s, Threw e).

Definition gets {A} (f : S -> A) : t A := fun s => (s, Returned (f s)).

Definition modify (f : S -> S) : t unit := fun s => (f s, Returned tt).

(** [try { body } catch (e) { handler }] *)
Definition try_catch {A} (body : t A) (handler : Thrown -> t A) : t A :=
  fun s =>
    match body s with
    | (s', Returned a) => (s', Returned a)
    | (s', Threw e) => handler e s'
    end.

(** [try { body } finally { fin }]: [fin] runs on both exits, and the
    exit of [body] stands unless [fin] itself throws. *)
Definition try_finally {A} (body : t A) (fin : t unit) : t A :=
  fun s =>
    match body s with
    | (s1, r) =>
        match fin s1 with
        | (s2, Returned _) => (s2, r)
        | (s2, Threw e) => (s2, Threw e)
        end
    end.
End WithState.

(** A block with one local variable of type [L], initialised to [init];
  the variable is dropped when the block is left. *)
Definition with_local {S L A} (init : L) (m : @t (S * L) A) : @t S A :=
fun s =>
  match m (s, init) with
  | ((s', _), r) => (s', r)
  end.

(** Run a computation of the enclosing scope inside such a block. *)
Definition lift {S L A} (m : @t S A) : @t (S * L) A :=
fun sl =>
  match m (fst sl) with
  | (s', r) => ((s', snd sl), r)
  end.

Definition get_local {S L} : @t (S * L) L := gets snd.

Definition set_local {S L} (l : L) : @t (S * L) unit :=
modify (fun sl => (fst sl, l)).
End Eff.

Notation "x <- m ;; k" := (Eff.bind m (fun x => k))
  (at level 100, m at next level, right associativity).
Notation "m ;; k" := (Eff.bind m (fun _ => k))
  (at level 100, right associativity).

(** An [async] method of the class. *)
Definition Async (A : Type) : Type := @Eff.t World A.

(** ** Collaborators *)

(** [ErrorCodes]: the string constants the class reads. *)
Record ErrorCodesTable := {
  loginRequired : string;
  sessionExpired : string;
  tokenRenewalError : string;
  loginRequestFailed : string;
  loginResponseFailed : string
}.

(** [ErrorFactory]: the static methods the class calls, each taking the
    caught value and an error code. *)
Record ErrorFactoryMethods := {
  getFromLoginOperation : Thrown -> string -> UIError;
  getFromTokenError : Thrown -> string -> UIError
}.

(** What a call into the OIDC library leaves behind: its two stores as
    the library updated them, the time at which the call settled, and
    either the value it resolved with or the error it rejected with. *)
Record LibReply (A : Type) := {
  reply_user : option User;
  reply_states : gmap string string;
  reply_clock : Z;
  reply_result : JsError + A
}.
Arguments reply_user {A} _.
Arguments reply_states {A} _.
Arguments reply_clock {A} _.
Arguments reply_result {A} _.

(** The [UserManager] operations that go to the authorization server.
    Their answers are not decided by the class: each is an arbitrary
    function of the world in which the call is made. *)
Record UserManagerLib := {
  lib_signinSilent : World -> LibReply User;
  lib_signinRedirect : LoginData -> World -> LibReply unit;
  lib_signinRedirectCallback : World -> LibReply User
}.

(** Record a library call in the trace, install the stores the library
    left and the time at which it settled, and return or throw its
    result. *)
Definition settled {A} (ev : Event) (r : LibReply A) (w : World) : World :=
  set_clock (reply_clock r)
    (set_stateStore (reply_states r)
       (set_userStore (reply_user r) (log ev w))).

Definition call_library {A} (ev : Event) (answer : World -> LibReply A)
  : Async A :=
  fun w =>
    let r := answer w in
    match reply_result r with
    | inr a => (settled ev r w, Returned a)
    | inl e => (settled ev r w, Threw (ThrownError e))
    end.

(** [new URLSearchParams(location.search).get(name)]: the first value
    given for [name], or [null]. *)
Fixpoint URLSearchParams_get (args : list (string * string)) (name : string)
  : option string :=
  match args with
  | [] => None
  | (k, v) :: rest =>
      if String.eqb k name then Some v else URLSearchParams_get rest name
  end.

(** [location.hash]: empty when the URL has no fragment or an empty one. *)
Definition location_hash (w : World) : string :=
  if String.eqb (visible_fragment w) "#" then "" else visible_fragment w.

(** [history.replaceState({}, document.title, url)] with a fragment
    reference [url]: the entry's URL becomes the document base followed by
    [url].  The base of the page carries no query, so the query of the
    OAuth response is gone from the entry. *)
Definition history_replaceState (url : string) : Async unit :=
  Eff.modify (fun w => set_visible [] url (log (EvReplaceState url) w)).

(** [new Date().getTime()] *)
Definition Date_getTime : Async Z := Eff.gets clock.

Section Authenticator.

Variable configuration : OAuthConfiguration.
Variable ErrorCodes : ErrorCodesTable.
Variable ErrorFactory : ErrorFactoryMethods.
Variable userManager : UserManagerLib.

(** *** The library's local operations *)

Definition getUser : Async (option User) := Eff.gets userStore.

Definition storeUser (user : User) : Async unit :=
  Eff.modify (set_userStore (Some user)).

Definition removeUser : Async unit := Eff.modify (set_userStore None).

Definition stateStore_get (key : string) : Async (option string) :=
  Eff.gets (fun w => stateStore w !! key).

Definition signinSilent : Async User :=
  call_library EvSigninSilent (lib_signinSilent userManager).

Definition signinRedirect (data : LoginData) : Async unit :=
  call_library (EvSigninRedirect data) (lib_signinRedirect userManager data).

Definition signinRedirectCallback : Async User :=
  call_library EvSigninRedirectCallback
    (lib_signinRedirectCallback userManager).

Definition is_cognito : bool := String.eqb (provider configuration) "cognito".

(** [user.refresh_token = ''] *)
Definition clear_refresh_token (user : User) : User :=
  {| access_token := access_token user; refresh_token := Some "";
     profile := profile user; user_state := user_state user |}.

(** *** Methods of the class *)

Definition clearLoginState : Async unit :=
  removeUser ;;
  Eff.modify (set_loginTime None) ;;
  Eff.modify (set_isLoggedIn false).

Definition _performAccessTokenRenewalViaIframeRedirect : Async unit :=
  Eff.try_catch
    (signinSilent ;; Eff.ret tt)
    (fun e =>
       if decide (error_field e = Some (loginRequired ErrorCodes))
       then clearLoginState
       else Eff.throw (ThrownUIError
              (getFromTokenError ErrorFactory e
                 (tokenRenewalError ErrorCodes)))).

Definition _performAccessTokenRenewalViaRefreshToken : Async unit :=
  Eff.try_catch
    (signinSilent ;; Eff.ret tt)
    (fun e =>
       if decide (error_field e = Some (sessionExpired ErrorCodes))
       then clearLoginState
       else Eff.throw (ThrownUIError
              (getFromTokenError ErrorFactory e
                 (tokenRenewalError ErrorCodes)))).

(** [user && user.refresh_token] *)
Definition has_refresh_token (user : option User) : bool :=
  match user with
  | Some u =>
      match truthy_string (refresh_token u) with
      | Some _ => true
      | None => false
      end
  | None => false
  end.

(** [if (user && user.access_token) return user.access_token], as the
    token to return, if any. *)
Definition present_access_token (user : option User) : option string :=
  match user with
  | Some u => truthy_string (Some (access_token u))
  | None => None
  end.

Definition refreshAccessToken : Async (option string) :=
  logged <- Eff.gets isLoggedIn ;;
  if (logged : bool) then
    (if is_cognito then
       user <- getUser ;;
       if has_refresh_token user
       then _performAccessTokenRenewalViaRefreshToken
       else Eff.ret tt
     else
       _performAccessTokenRenewalViaIframeRedirect ;;
       user <- getUser ;;
       match user with
       | Some u =>
           if has_refresh_token user
           then storeUser (clear_refresh_token u)
           else Eff.ret tt
       | None => Eff.ret tt
       end) ;;
    updatedUser <- getUser ;;
    match present_access_token updatedUser with
    | Some token => Eff.ret (Some token)
    | None => Eff.ret None
    end
  else Eff.ret None.

Definition getAccessToken : Async (option string) :=
  user <- getUser ;;
  match present_access_token user with
  | Some token => Eff.ret (Some token)
  | None => refreshAccessToken
  end.

Definition _preventRedirectLoop (api401Error : option UIError)
  : Async unit :=
  recorded <- Eff.gets loginTime ;;
  match api401Error, truthy_number recorded with
  | Some err, Some _loginTime =>
      currentTime <- Date_getTime ;;
      let millisecondsSinceLogin := currentTime - _loginTime in
      if millisecondsSinceLogin <? 1000
      then clearLoginState ;; Eff.throw (ThrownUIError err)
      else Eff.ret tt
  | _, _ => Eff.ret tt
  end.

(** [{ hash: location.hash.length > 0 ? location.hash : '#' }] *)
Definition login_data (hash : string) : LoginData :=
  {| data_hash := if (0 <? String.length hash)%nat then hash else "#" |}.

Definition startLogin (api401Error : option UIError) : Async unit :=
  Eff.try_catch
    (hash <- Eff.gets location_hash ;;
     let data := login_data hash in
     _preventRedirectLoop api401Error ;;
     signinRedirect data)
    (fun e =>
       Eff.throw (ThrownUIError
         (getFromLoginOperation ErrorFactory e
            (loginRequestFailed ErrorCodes)))).

(** The [try] block of [handleLoginResponse]; its local variable is
    [redirectLocation].  Reading [.hash] of an undefined [user.state]
    throws a [TypeError]. *)
Definition handleLoginResponse_try : @Eff.t (World * string) unit :=
  user <- Eff.lift signinRedirectCallback ;;
  let user :=
    if negb is_cognito then clear_refresh_token user else user in
  Eff.lift (storeUser user) ;;
  match user_state user with
  | Some data => Eff.set_local (data_hash data)
  | None =>
      Eff.throw (ThrownError
        {| error := None;
           message := "Cannot read properties of undefined" |})
  end ;;
  Eff.lift (Eff.modify (set_isLoggedIn true)) ;;
  now <- Eff.lift Date_getTime ;;
  Eff.lift (Eff.modify (set_loginTime (Some now))).

Definition handleLoginResponse : Async unit :=
  args <- Eff.gets visible_query ;;
  match truthy_string (URLSearchParams_get args "state") with
  | Some state =>
      storedState <- stateStore_get state ;;
      match truthy_string storedState with
      | Some _ =>
          Eff.with_local "#"
            (Eff.try_finally
               (Eff.try_catch
                  handleLoginResponse_try
                  (fun e =>
                     Eff.throw (ThrownUIError
                       (getFromLoginOperation ErrorFactory e
                          (loginResponseFailed ErrorCodes)))))
               (redirectLocation <- Eff.get_local ;;
                Eff.lift (history_replaceState redirectLocation)))
      | None => Eff.ret tt
      end
  | None => Eff.ret tt
  end.

End Authenticator.

(** ** The rest of the class: user info, test expiry and logout *)

(** [OAuthUserInfo], the object [getUserInfo] returns. *)
Record OAuthUserInfo := {
  givenName : string;
  familyName : string
}.

(** What [startLogout] sends out of the page, most recent first: the
    logout notification for the other tabs, and the navigation to the
    authorization server, either by [location.replace] or by the
    library's end-session redirect. *)
Inductive Departure :=
| LoggedOutRaised
| LocationReplaced (url : string)
| SignoutRedirected.

Section Session.

Variable configuration : OAuthConfiguration.

(** The collaborators of [startLogout]: the library's
    [signoutRedirect], [ErrorFactory.getFromLogoutOperation] and
    [ErrorCodes.logoutRequestFailed]. *)
Variable lib_signoutRedirect : World -> LibReply unit.
Variable getFromLogoutOperation : Thrown -> string -> UIError.
Variable logoutRequestFailed : string.

Definition onExternalLogout : Async unit := clearLoginState.

Definition getUserInfo : Async (option OAuthUserInfo) :=
  user <- getUser ;;
  match user with
  | Some u =>
      match truthy_string (given_name (profile u)),
            truthy_string (family_name (profile u)) with
      | Some given, Some family =>
          Eff.ret (Some {| givenName := given; familyName := family |})
      | _, _ => Eff.ret None
      end
  | None => Eff.ret None
  end.

(** [user.access_token = `${user.access_token}x`] *)
Definition corrupt_access_token (user : User) : User :=
  {| access_token := String.append (access_token user) "x";
     refresh_token := refresh_token user;
     profile := profile user; user_state := user_state user |}.

Definition expireAccessToken : Async unit :=
  user <- getUser ;;
  match user with
  | Some u => storeUser (corrupt_access_token u)
  | None => Eff.ret tt
  end.

Definition _getCognitoEndSessionRequestUrl : string :=
  let url := customLogoutEndpoint configuration in
  String.append url
    (String.append "?client_id="
       (String.append (clientId configuration)
          (String.append "&logout_uri="
             (postLogoutRedirectUri configuration)))).

(** [HtmlStorageHelper.raiseLoggedOutEvent()] and [location.replace(url)],
    as entries of the departure log. *)
Definition depart (d : Departure) : @Eff.t (World * list Departure) unit :=
  Eff.modify (fun s => (fst s, d :: snd s)).

(** [this._userManager.signoutRedirect()]: the library leaves its stores
    and the clock as it answers, and resolves or rejects. *)
Definition signoutRedirect : @Eff.t (World * list Departure) unit :=
  fun s =>
    let r := lib_signoutRedirect (fst s) in
    let w' := set_clock (reply_clock r)
                (set_stateStore (reply_states r)
                   (set_userStore (reply_user r) (fst s))) in
    match reply_result r with
    | inr _ => ((w', SignoutRedirected :: snd s), Returned tt)
    | inl e => ((w', SignoutRedirected :: snd s), Threw (ThrownError e))
    end.

Definition startLogout : @Eff.t (World * list Departure) unit :=
  Eff.try_catch
    (Eff.lift clearLoginState ;;
     depart LoggedOutRaised ;;
     if is_cognito configuration
     then depart (LocationReplaced _getCognitoEndSessionRequestUrl)
     else signoutRedirect)
    (fun e =>
       Eff.throw (ThrownUIError
         (getFromLogoutOperation e logoutRequestFailed))).

End Session.

(** ** Sample collaborators and worlds

    Concrete values on which the statements below are exercised. *)
Module Sample.

Definition iframe_configuration : OAuthConfiguration :=
  {| provider := "standard";
     authority := "https://login.example.com";
     clientId := "spa";
     redirectUri := "https://web.example.com/spa/";
     postLogoutRedirectUri := "https://web.example.com/spa/loggedout.html";
     scope := "openid profile";
     customLogoutEndpoint := "" |}.

Definition cognito_configuration : OAuthConfiguration :=
  {| provider := "cognito";
     authority := "https://cognito-idp.example.com/pool";
     clientId := "spa";
     redirectUri := "https://web.example.com/spa/";
     postLogoutRedirectUri := "https://web.example.com/spa/loggedout.html";
     scope := "openid profile";
     customLogoutEndpoint := "https://login.example.com/logout" |}.

Definition codes : ErrorCodesTable :=
  {| loginRequired := "login_required";
     sessionExpired := "invalid_grant";
     tokenRenewalError := "token_renewal_error";
     loginRequestFailed := "login_request_failed";
     loginResponseFailed := "login_response_failed" |}.

(** A factory that hands back an error that already is a [UIError] and
    wraps anything else under the code it is given. *)
Definition wrap (e : Thrown) (code : string) : UIError :=
  match e with
  | ThrownUIError ui => ui
  | ThrownError j => {| errorCode := code; details := message j |}
  end.

Definition factory : ErrorFactoryMethods :=
  {| getFromLoginOperation := wrap; getFromTokenError := wrap |}.

(** A library whose silent renewal and callback answers are fixed in
    advance.  A resolved call stores the user it resolves with, a
    rejected one leaves the stores alone; every call takes 250 ms. *)
Definition settle {A} (stored : A -> option User) (answer : JsError + A)
    (w : World) : LibReply A :=
  {| reply_user := match answer with
                   | inr a => match stored a with
                              | Some u => Some u
                              | None => userStore w
                              end
                   | inl _ => userStore w
                   end;
     reply_states := stateStore w;
     reply_clock := clock w + 250;
     reply_result := answer |}.

Definition library (silent callback : JsError + User) : UserManagerLib :=
  {| lib_signinSilent := settle Some silent;
     lib_signinRedirect := fun _ => settle (fun _ => None) (inr tt);
     lib_signinRedirectCallback := settle Some callback |}.

(** A library that rejects every silent renewal and every exchange with
    [code]. *)
Definition rejecting (code : option string) : UserManagerLib :=
  library (inl {| error := code; message := "request failed" |})
          (inl {| error := code; message := "request failed" |}).

Definition nobody : Profile :=
  {| given_name := None; family_name := None |}.

Definition user (token : string) (refresh : option string)
    (fragment : option string) : User :=
  {| access_token := token; refresh_token := refresh; profile := nobody;
     user_state := match fragment with
                   | Some h => Some {| data_hash := h |}
                   | None => None
                   end |}.

Definition failure (code : option string) : JsError :=
  {| error := code; message := "request failed" |}.

Definition api401 : UIError :=
  {| errorCode := "invalid_token"; details := "401 from the API" |}.

(** A page that has just been opened: nothing stored, no fragment. *)
Definition fresh : World :=
  {| userStore := None; stateStore := ∅; loginTime := None;
     isLoggedIn := false; visible_query := []; visible_fragment := "";
     clock := 1700000000000; calls := [] |}.

(** A page in a session that began at time [since]. *)
Definition session (u : option User) (since : Z) (now : Z) : World :=
  {| userStore := u; stateStore := ∅; loginTime := Some since;
     isLoggedIn := true; visible_query := [];
     visible_fragment := "#company=2"; clock := now; calls := [] |}.

(** A page loaded from the authorization server's redirect; [known]
    tells whether the state it names is in the redirect-state store. *)
Definition returning (known : bool) : World :=
  {| userStore := None;
     stateStore := if known then <["s1" := "{}"]> ∅ else ∅;
     loginTime := None; isLoggedIn := false;
     visible_query := [("code", "c1"); ("state", "s1")];
     visible_fragment := ""; clock := 1700000000000; calls := [] |}.

End Sample.

(** Further sample values: a user that has its names, and the
    collaborators of the logout. *)
Module Scenario.

Definition ada (token : string) (refresh : option string)
    (fragment : option string) : User :=
  {| access_token := token; refresh_token := refresh;
     profile := {| given_name := Some "Ada"; family_name := Some "Byron" |};
     user_state := match fragment with
                   | Some h => Some {| data_hash := h |}
                   | None => None
                   end |}.

(** An end-session redirect that resolves, and one that is rejected. *)
Definition signout_resolves : World -> LibReply unit :=
  Sample.settle (fun _ => None) (inr tt).

Definition signout_rejected : World -> LibReply unit :=
  Sample.settle (fun _ => None) (inl (Sample.failure None)).

Definition logout_code : string := "logout_request_failed".

End Scenario.

(** ** Properties *)

(** Unfold the plumbing of the effect layer and of the library's local
    operations, and reduce the matches that become closed. *)
Ltac eff :=
  cbv beta iota delta
    [Eff.bind Eff.ret Eff.gets Eff.modify Eff.throw Eff.try_catch
     Eff.try_finally Eff.with_local Eff.lift Eff.get_local Eff.set_local
     getUser storeUser removeUser stateStore_get Date_getTime fst snd].

Section Properties.

Variable configuration : OAuthConfiguration.
Variable ErrorCodes : ErrorCodesTable.
Variable ErrorFactory : ErrorFactoryMethods.
Variable userManager : UserManagerLib.

(** The methods of one authenticator. *)
Let get :=
  getAccessToken configuration ErrorCodes ErrorFactory userManager.
Let refresh :=
  refreshAccessToken configuration ErrorCodes ErrorFactory userManager.
Let login :=
  startLogin ErrorCodes ErrorFactory userManager.
Let handle :=
  handleLoginResponse configuration ErrorCodes ErrorFactory userManager.

(** The world in which the library's silent renewal has settled. *)
Let renewed (w : World) : World :=
  settled EvSigninSilent (lib_signinSilent userManager w) w.

(** The error that a technical renewal failure is turned into. *)
Let raised (e : JsError) : UIError :=
  getFromTokenError ErrorFactory (ThrownError e)
    (tokenRenewalError ErrorCodes).

(** The world in which the library's code exchange has settled. *)
Let exchanged (w : World) : World :=
  settled EvSigninRedirectCallback
    (lib_signinRedirectCallback userManager w) w.

(** The user that the class stores after a successful exchange. *)
Let kept (user : User) : User :=
  if negb (is_cognito configuration) then clear_refresh_token user else user.

(** The redirect that [startLogin] performs from world [w], and what the
    method makes of the library's answer. *)
Let redirected (w : World) : World * Outcome unit :=
  let data := login_data (location_hash w) in
  let r := lib_signinRedirect userManager data w in
  (settled (EvSigninRedirect data) r w,
   match reply_result r with
   | inr _ => Returned tt
   | inl e =>
       Threw (ThrownUIError
         (getFromLoginOperation ErrorFactory (ThrownError e)
            (loginRequestFailed ErrorCodes)))
   end).

(** *** Clearing the login state *)

Lemma clearLoginState_run (w : World) :
  clearLoginState w
  = (set_isLoggedIn false (set_loginTime None (set_userStore None w)),
     Returned tt).
Proof. reflexivity. Qed.

(** C8. [clearLoginState] is idempotent: run twice in succession it ends
    in the same world as run once, and in that world the session state is
    removed, the login timestamp is null and [isLoggedIn] is false. *)
Theorem clearLoginState_idempotent (w : World) :
  (clearLoginState ;; clearLoginState) w = clearLoginState w
  /\ userStore (fst (clearLoginState w)) = None
  /\ loginTime (fst (clearLoginState w)) = None
  /\ isLoggedIn (fst (clearLoginState w)) = false.
Proof.
  unfold Eff.bind at 1.
  rewrite !clearLoginState_run.
  repeat split.
Qed.

(** *** Returning and refreshing the access token *)

Lemma present_access_token_some (w : World) (u : User) :
  userStore w = Some u -> access_token u <> "" ->
  present_access_token (userStore w) = Some (access_token u).
Proof.
  intros -> Hne. unfold present_access_token, truthy_string, truthy.
  destruct (String.eqb_spec (access_token u) ""); [contradiction | reflexivity].
Qed.

Lemma present_access_token_none (w : World) :
  (userStore w = None
   \/ exists u, userStore w = Some u /\ access_token u = "") ->
  present_access_token (userStore w) = None.
Proof.
  intros [-> | (u & -> & Hu)]; [reflexivity |].
  unfold present_access_token, truthy_string, truthy.
  rewrite Hu. reflexivity.
Qed.

(** C6. When the stored user carries a (non-empty) access token,
    [getAccessToken] returns it and leaves the world as it was: no
    state is changed and no call is added to the trace.  When there is
    no stored user, or its access token is empty, [getAccessToken]
    behaves as [refreshAccessToken]. *)
Theorem getAccessToken_present_or_refresh (w : World) :
  (forall u, userStore w = Some u -> access_token u <> "" ->
             get w = (w, Returned (Some (access_token u))))
  /\ ((userStore w = None
       \/ exists u, userStore w = Some u /\ access_token u = "") ->
      get w = refresh w).
Proof.
  split.
  - intros u Hu Hne.
    unfold get, getAccessToken, Eff.bind, getUser, Eff.gets.
    rewrite (present_access_token_some w u Hu Hne). reflexivity.
  - intros H.
    unfold get, getAccessToken, Eff.bind, getUser, Eff.gets.
    rewrite (present_access_token_none w H). reflexivity.
Qed.

(** C7. When the persisted [isLoggedIn] flag is false,
    [refreshAccessToken] returns null and the world is untouched: no
    silent renewal is recorded in the trace and no state is changed. *)
Theorem refreshAccessToken_not_logged_in (w : World) :
  isLoggedIn w = false ->
  refresh w = (w, Returned None).
Proof.
  intros H.
  unfold refresh, refreshAccessToken. eff.
  rewrite H. reflexivity.
Qed.

(** C10. For the Cognito provider, with [isLoggedIn] true and no
    refresh token in the session state, [refreshAccessToken] makes no
    silent-renewal call (the world, trace included, is unchanged) and
    returns the access token already in the session state if there is
    one, and null otherwise. *)
Theorem refreshAccessToken_cognito_without_refresh_token (w : World) :
  is_cognito configuration = true ->
  isLoggedIn w = true ->
  has_refresh_token (userStore w) = false ->
  refresh w = (w, Returned (present_access_token (userStore w))).
Proof.
  intros Hc Hl Hr.
  unfold refresh, refreshAccessToken. eff.
  rewrite Hl, Hc. eff. rewrite Hr.
  destruct (present_access_token (userStore w)); reflexivity.
Qed.

(** *** Failures of the silent renewal *)

Lemma signinSilent_rejected (w : World) (e : JsError) :
  reply_result (lib_signinSilent userManager w) = inl e ->
  signinSilent userManager w = (renewed w, Threw (ThrownError e)).
Proof.
  intros H. unfold signinSilent, call_library. cbv zeta. rewrite H.
  reflexivity.
Qed.

Lemma signinSilent_resolved (w : World) (u : User) :
  reply_result (lib_signinSilent userManager w) = inr u ->
  signinSilent userManager w = (renewed w, Returned u).
Proof.
  intros H. unfold signinSilent, call_library. cbv zeta. rewrite H.
  reflexivity.
Qed.

Lemma viaRefreshToken_rejected (w : World) (e : JsError) :
  reply_result (lib_signinSilent userManager w) = inl e ->
  _performAccessTokenRenewalViaRefreshToken ErrorCodes ErrorFactory
    userManager w
  = if decide (error e = Some (sessionExpired ErrorCodes))
    then clearLoginState (renewed w)
    else (renewed w, Threw (ThrownUIError (raised e))).
Proof.
  intros H. unfold _performAccessTokenRenewalViaRefreshToken. eff.
  rewrite (signinSilent_rejected w e H). eff.
  unfold error_field.
  destruct (decide (error e = Some (sessionExpired ErrorCodes)));
    reflexivity.
Qed.

Lemma viaIframeRedirect_rejected (w : World) (e : JsError) :
  reply_result (lib_signinSilent userManager w) = inl e ->
  _performAccessTokenRenewalViaIframeRedirect ErrorCodes ErrorFactory
    userManager w
  = if decide (error e = Some (loginRequired ErrorCodes))
    then clearLoginState (renewed w)
    else (renewed w, Threw (ThrownUIError (raised e))).
Proof.
  intros H. unfold _performAccessTokenRenewalViaIframeRedirect. eff.
  rewrite (signinSilent_rejected w e H). eff.
  unfold error_field.
  destruct (decide (error e = Some (loginRequired ErrorCodes)));
    reflexivity.
Qed.

Lemma viaIframeRedirect_resolved (w : World) (u : User) :
  reply_result (lib_signinSilent userManager w) = inr u ->
  _performAccessTokenRenewalViaIframeRedirect ErrorCodes ErrorFactory
    userManager w
  = (renewed w, Returned tt).
Proof.
  intros H. unfold _performAccessTokenRenewalViaIframeRedirect. eff.
  rewrite (signinSilent_resolved w u H). reflexivity.
Qed.

(** C4. A silent renewal attempted by [refreshAccessToken] and rejected
    by the library with error [e].  Under the refresh-token strategy
    (Cognito, refresh token in the session state): if [e] is the
    session-expired error the login state is cleared and null is returned,
    otherwise the failure is passed to [getFromTokenError] with the
    token-renewal code and the result is thrown.  Under the iframe
    strategy (any other provider) the same holds with the login-required
    error in place of session-expired.  In the cleared world the session
    state is removed, the timestamp is null and [isLoggedIn] is false; and
    when the factory stamps an error with the code it is handed, the thrown
    error carries the token-renewal code. *)
Theorem refreshAccessToken_renewal_rejected (w : World) (e : JsError) :
  isLoggedIn w = true ->
  reply_result (lib_signinSilent userManager w) = inl e ->
  let cleared := fst (clearLoginState (renewed w)) in
  (is_cognito configuration = true ->
   has_refresh_token (userStore w) = true ->
   (error e = Some (sessionExpired ErrorCodes) ->
    refresh w = (cleared, Returned None))
   /\ (error e <> Some (sessionExpired ErrorCodes) ->
       refresh w = (renewed w, Threw (ThrownUIError (raised e)))))
  /\ (is_cognito configuration = false ->
      (error e = Some (loginRequired ErrorCodes) ->
       refresh w = (cleared, Returned None))
      /\ (error e <> Some (loginRequired ErrorCodes) ->
          refresh w = (renewed w, Threw (ThrownUIError (raised e)))))
  /\ (userStore cleared = None
      /\ loginTime cleared = None
      /\ isLoggedIn cleared = false)
  /\ ((forall j code,
         errorCode (getFromTokenError ErrorFactory (ThrownError j) code)
         = code) ->
      errorCode (raised e) = tokenRenewalError ErrorCodes).
Proof.
  intros Hl He cleared.
  split; [| split; [| split]].
  - intros Hc Hr. split; intros Hcode.
    + unfold refresh, refreshAccessToken. eff. rewrite Hl, Hc. eff.
      rewrite Hr, (viaRefreshToken_rejected w e He).
      destruct (decide (error e = Some (sessionExpired ErrorCodes)));
        [reflexivity | contradiction].
    + unfold refresh, refreshAccessToken. eff. rewrite Hl, Hc. eff.
      rewrite Hr, (viaRefreshToken_rejected w e He).
      destruct (decide (error e = Some (sessionExpired ErrorCodes)));
        [contradiction | reflexivity].
  - intros Hc. split; intros Hcode.
    + unfold refresh, refreshAccessToken. eff. rewrite Hl, Hc. eff.
      rewrite (viaIframeRedirect_rejected w e He).
      destruct (decide (error e = Some (loginRequired ErrorCodes)));
        [reflexivity | contradiction].
    + unfold refresh, refreshAccessToken. eff. rewrite Hl, Hc. eff.
      rewrite (viaIframeRedirect_rejected w e He).
      destruct (decide (error e = Some (loginRequired ErrorCodes)));
        [contradiction | reflexivity].
  - repeat split.
  - intros Hstamp. unfold raised. apply Hstamp.
Qed.

(** *** The login response *)

Lemma truthy_string_some (s : string) :
  s <> "" -> truthy_string (Some s) = Some s.
Proof.
  intros H. unfold truthy_string, truthy.
  destruct (String.eqb_spec s ""); [contradiction | reflexivity].
Qed.

(** The exchange was rejected: nothing is stored by the class and the
    entry is replaced by the root fragment. *)
Lemma handleLoginResponse_rejected (w : World) (st stored : string)
    (e : JsError) :
  URLSearchParams_get (visible_query w) "state" = Some st -> st <> "" ->
  stateStore w !! st = Some stored -> stored <> "" ->
  reply_result (lib_signinRedirectCallback userManager w) = inl e ->
  handle w
  = (set_visible [] "#" (log (EvReplaceState "#") (exchanged w)),
     Threw (ThrownUIError
       (getFromLoginOperation ErrorFactory (ThrownError e)
          (loginResponseFailed ErrorCodes)))).
Proof.
  intros Hst Hne Hstored Hne' He.
  unfold handle, handleLoginResponse. eff.
  rewrite Hst, (truthy_string_some st Hne). eff.
  rewrite Hstored, (truthy_string_some stored Hne'). eff.
  unfold handleLoginResponse_try, signinRedirectCallback, call_library. eff.
  rewrite He. reflexivity.
Qed.

(** The exchange resolved with a user whose state is undefined: the user
    is stored, reading the fragment throws, and the entry is replaced by
    the root fragment. *)
Lemma handleLoginResponse_stateless (w : World) (st stored : string)
    (user : User) :
  URLSearchParams_get (visible_query w) "state" = Some st -> st <> "" ->
  stateStore w !! st = Some stored -> stored <> "" ->
  reply_result (lib_signinRedirectCallback userManager w) = inr user ->
  user_state user = None ->
  exists e,
    handle w
    = (set_visible [] "#"
         (log (EvReplaceState "#")
            (set_userStore (Some (kept user)) (exchanged w))),
       Threw e).
Proof.
  intros Hst Hne Hstored Hne' He Hstate.
  unfold handle, handleLoginResponse. eff.
  rewrite Hst, (truthy_string_some st Hne). eff.
  rewrite Hstored, (truthy_string_some stored Hne'). eff.
  unfold handleLoginResponse_try, signinRedirectCallback, call_library. eff.
  rewrite He. eff.
  replace (user_state
             (if negb (is_cognito configuration)
              then clear_refresh_token user else user))
    with (@None LoginData)
    by (destruct (negb (is_cognito configuration)); simpl; congruence).
  eff. eexists. reflexivity.
Qed.

(** The exchange resolved with a user that carries the saved fragment. *)
Lemma handleLoginResponse_resolved (w : World) (st stored : string)
    (user : User) (h : string) :
  URLSearchParams_get (visible_query w) "state" = Some st -> st <> "" ->
  stateStore w !! st = Some stored -> stored <> "" ->
  reply_result (lib_signinRedirectCallback userManager w) = inr user ->
  user_state user = Some {| data_hash := h |} ->
  handle w
  = (set_visible [] h
       (log (EvReplaceState h)
          (set_loginTime (Some (clock (exchanged w)))
             (set_isLoggedIn true
                (set_userStore (Some (kept user)) (exchanged w))))),
     Returned tt).
Proof.
  intros Hst Hne Hstored Hne' He Hstate.
  unfold handle, handleLoginResponse. eff.
  rewrite Hst, (truthy_string_some st Hne). eff.
  rewrite Hstored, (truthy_string_some stored Hne'). eff.
  unfold handleLoginResponse_try, signinRedirectCallback, call_library. eff.
  rewrite He. eff.
  replace (user_state
             (if negb (is_cognito configuration)
              then clear_refresh_token user else user))
    with (Some {| data_hash := h |})
    by (destruct (negb (is_cognito configuration)); simpl; congruence).
  reflexivity.
Qed.

Lemma has_refresh_token_cleared (user : User) :
  has_refresh_token (Some (clear_refresh_token user)) = false.
Proof. reflexivity. Qed.

Lemma kept_spelled_out (user : User) :
  kept user
  = if is_cognito configuration then user else clear_refresh_token user.
Proof. unfold kept. destruct (is_cognito configuration); reflexivity. Qed.

(** C3. Whenever the page load is recognised as a login response (a
    non-empty [state] parameter whose stored redirect state exists),
    [handleLoginResponse] replaces the navigation entry right after the
    exchange, whatever the exchange did: the trace gains a [replaceState]
    call, the visible URL has no query left and shows the replacement
    target.  If the method throws, the target is the root fragment; and it
    does throw when the exchange is rejected. *)
Theorem handleLoginResponse_always_replaces_entry (w : World)
    (st stored : string) :
  URLSearchParams_get (visible_query w) "state" = Some st -> st <> "" ->
  stateStore w !! st = Some stored -> stored <> "" ->
  let w' := fst (handle w) in
  (exists target,
     calls w' = EvReplaceState target :: EvSigninRedirectCallback :: calls w
     /\ visible_fragment w' = target)
  /\ visible_query w' = []
  /\ (forall t, snd (handle w) = Threw t ->
      calls w' = EvReplaceState "#" :: EvSigninRedirectCallback :: calls w
      /\ visible_fragment w' = "#")
  /\ (forall e,
      reply_result (lib_signinRedirectCallback userManager w) = inl e ->
      exists t, snd (handle w) = Threw t).
Proof.
  intros Hst Hne Hstored Hne'. cbv zeta.
  destruct (reply_result (lib_signinRedirectCallback userManager w))
    as [e | user] eqn:He.
  - rewrite (handleLoginResponse_rejected w st stored e Hst Hne Hstored Hne' He).
    split; [exists "#"; split; reflexivity |].
    split; [reflexivity |].
    split; [intros _ _; split; reflexivity |].
    intros e' _. eexists. reflexivity.
  - destruct (user_state user) as [[h] |] eqn:Hstate.
    + rewrite (handleLoginResponse_resolved w st stored user h
                 Hst Hne Hstored Hne' He Hstate).
      split; [exists h; split; reflexivity |].
      split; [reflexivity |].
      split; [intros t Ht; discriminate Ht |].
      intros e' He'. discriminate He'.
    + destruct (handleLoginResponse_stateless w st stored user
                  Hst Hne Hstored Hne' He Hstate) as [t' ->].
      split; [exists "#"; split; reflexivity |].
      split; [reflexivity |].
      split; [intros _ _; split; reflexivity |].
      intros e' He'. discriminate He'.
Qed.

(** [startLogin] saves the root fragment when the page has none. *)
Lemma login_data_default (hash : string) :
  hash = "" -> login_data hash = {| data_hash := "#" |}.
Proof. intros ->. reflexivity. Qed.

Lemma login_data_fragment (hash : string) :
  hash <> "" -> login_data hash = {| data_hash := hash |}.
Proof.
  intros H. unfold login_data. destruct hash; [contradiction | reflexivity].
Qed.

(** C5. A login response whose exchange resolves with a user carrying the
    saved fragment [h] (for instance ["#foo"]): [handleLoginResponse]
    returns, the visible URL is [h] with no query, [isLoggedIn] is true,
    the user is in the user store (without its refresh token unless the
    provider is Cognito) and the login timestamp is the current time.
    The fragment that is saved for a page without one is the root
    fragment: it is what [startLogin] hands to the redirect. *)
Theorem handleLoginResponse_success (w : World) (st stored : string)
    (user : User) (h : string) :
  URLSearchParams_get (visible_query w) "state" = Some st -> st <> "" ->
  stateStore w !! st = Some stored -> stored <> "" ->
  reply_result (lib_signinRedirectCallback userManager w) = inr user ->
  user_state user = Some {| data_hash := h |} ->
  let w' := fst (handle w) in
  snd (handle w) = Returned tt
  /\ visible_fragment w' = h
  /\ visible_query w' = []
  /\ isLoggedIn w' = true
  /\ userStore w'
     = Some (if is_cognito configuration then user
             else clear_refresh_token user)
  /\ loginTime w' = Some (clock w')
  /\ (forall w0, location_hash w0 = "" ->
      calls (fst (login None w0))
      = EvSigninRedirect {| data_hash := "#" |} :: calls w0).
Proof.
  intros Hst Hne Hstored Hne' He Hstate. cbv zeta.
  rewrite (handleLoginResponse_resolved w st stored user h
             Hst Hne Hstored Hne' He Hstate).
  cbn [fst snd]. rewrite kept_spelled_out.
  repeat (split; [reflexivity |]).
  intros w0 H0.
  unfold login, startLogin, _preventRedirectLoop. eff.
  rewrite (login_data_default _ H0).
  unfold signinRedirect, call_library. cbv zeta.
  destruct (reply_result (lib_signinRedirect userManager _ w0)); reflexivity.
Qed.

(** C9. A page load whose URL has a [state] parameter with no stored
    redirect state under that name: [handleLoginResponse] returns and the
    world is exactly as before.  No exchange and no [replaceState] is in
    the trace, the stores, the flag and the timestamp are unchanged, and
    the query is still in the visible URL. *)
Theorem handleLoginResponse_unknown_state (w : World) (st : string) :
  URLSearchParams_get (visible_query w) "state" = Some st ->
  stateStore w !! st = None ->
  handle w = (w, Returned tt).
Proof.
  intros Hst Hnone.
  unfold handle, handleLoginResponse. eff. rewrite Hst.
  destruct (truthy_string (Some st)) as [s |] eqn:Hs; [| reflexivity].
  assert (s = st) as ->.
  { unfold truthy_string in Hs. destruct (truthy st); congruence. }
  eff. rewrite Hnone. reflexivity.
Qed.

(** *** Where a refresh token is kept *)

(** The user that a recognised login response leaves in the user store,
    whether or not the saved fragment can be read afterwards. *)
Lemma handleLoginResponse_stores (w : World) (st stored : string)
    (user : User) :
  URLSearchParams_get (visible_query w) "state" = Some st -> st <> "" ->
  stateStore w !! st = Some stored -> stored <> "" ->
  reply_result (lib_signinRedirectCallback userManager w) = inr user ->
  userStore (fst (handle w))
  = Some (if is_cognito configuration then user
          else clear_refresh_token user).
Proof.
  intros Hst Hne Hstored Hne' He.
  destruct (user_state user) as [[h] |] eqn:Hstate.
  - rewrite (handleLoginResponse_resolved w st stored user h
               Hst Hne Hstored Hne' He Hstate).
    cbn [fst]. destruct (is_cognito configuration); reflexivity.
  - destruct (handleLoginResponse_stateless w st stored user
                Hst Hne Hstored Hne' He Hstate) as [t ->].
    cbn [fst]. destruct (is_cognito configuration); reflexivity.
Qed.

(** After an iframe renewal that returns, the stored user has no refresh
    token. *)
Lemma refreshAccessToken_iframe_strips (w w' : World)
    (token : option string) :
  is_cognito configuration = false ->
  isLoggedIn w = true ->
  refresh w = (w', Returned token) ->
  has_refresh_token (userStore w') = false.
Proof.
  intros Hc Hl.
  unfold refresh, refreshAccessToken. eff. rewrite Hl, Hc. eff.
  destruct (reply_result (lib_signinSilent userManager w))
    as [e | u] eqn:He.
  - rewrite (viaIframeRedirect_rejected w e He).
    destruct (decide (error e = Some (loginRequired ErrorCodes))).
    + rewrite clearLoginState_run. eff. cbn.
      intros H. apply pair_equal_spec in H as [<- _]. reflexivity.
    + intros H. discriminate H.
  - rewrite (viaIframeRedirect_resolved w u He). eff.
    destruct (userStore (renewed w)) as [v |] eqn:Hv.
    + destruct (has_refresh_token (Some v)) eqn:Hr.
      * eff. cbn.
        destruct (truthy (access_token v));
          intros H; apply pair_equal_spec in H as [<- _]; reflexivity.
      * eff. rewrite Hv.
        destruct (present_access_token (Some v));
          intros H; apply pair_equal_spec in H as [<- _];
          rewrite Hv; exact Hr.
    + eff. rewrite Hv. cbn.
      intros H. apply pair_equal_spec in H as [<- _].
      rewrite Hv. reflexivity.
Qed.

(** C2 (amended).  A refresh token returned by the login callback is not
    kept for a provider other than Cognito: the stored user's refresh
    token is the empty string.  For Cognito the user is stored as the
    callback returned it, refresh token included.  For a provider other
    than Cognito, after a silent renewal over the iframe from which
    [refreshAccessToken] returns, the stored session state has no refresh
    token. *)
Theorem refresh_token_kept_only_for_cognito (w : World) :
  (forall st stored user,
     URLSearchParams_get (visible_query w) "state" = Some st -> st <> "" ->
     stateStore w !! st = Some stored -> stored <> "" ->
     reply_result (lib_signinRedirectCallback userManager w) = inr user ->
     (is_cognito configuration = false ->
      userStore (fst (handle w)) = Some (clear_refresh_token user)
      /\ has_refresh_token (userStore (fst (handle w))) = false)
     /\ (is_cognito configuration = true ->
         userStore (fst (handle w)) = Some user))
  /\ (is_cognito configuration = false ->
      isLoggedIn w = true ->
      forall w' token,
        refresh w = (w', Returned token) ->
        has_refresh_token (userStore w') = false).
Proof.
  split.
  - intros st stored user Hst Hne Hstored Hne' He.
    pose proof (handleLoginResponse_stores w st stored user
                  Hst Hne Hstored Hne' He) as Hkept.
    split; intros Hc; rewrite Hc in Hkept.
    + rewrite Hkept. split; reflexivity.
    + exact Hkept.
  - intros Hc Hl w' token Hrun.
    exact (refreshAccessToken_iframe_strips w w' token Hc Hl Hrun).
Qed.

(** *** Starting the login *)

Lemma redirected_calls (w : World) :
  calls (fst (redirected w))
  = EvSigninRedirect (login_data (location_hash w)) :: calls w.
Proof. reflexivity. Qed.

(** The guard lets the call through: no error was passed, or no timestamp
    counts as recorded, or at least a second has gone by. *)
Lemma startLogin_passes (api401Error : option UIError) (w : World) :
  (api401Error = None
   \/ truthy_number (loginTime w) = None
   \/ exists t, loginTime w = Some t /\ 1000 <= clock w - t) ->
  login api401Error w = redirected w.
Proof.
  intros H.
  assert (_preventRedirectLoop api401Error w = (w, Returned tt)) as Hguard.
  { unfold _preventRedirectLoop. eff.
    destruct api401Error as [err |]; [| destruct (truthy_number _); reflexivity].
    destruct H as [H | [H | (t & Ht & Hlate)]].
    - discriminate H.
    - rewrite H. reflexivity.
    - rewrite Ht. unfold truthy_number.
      destruct (t =? 0); [reflexivity |].
      destruct (Z.ltb_spec (clock w - t) 1000); [lia | reflexivity]. }
  unfold login, startLogin. eff. rewrite Hguard. eff.
  unfold redirected, signinRedirect, call_library. cbv zeta.
  destruct (reply_result _) as [e | []]; reflexivity.
Qed.

(** The guard stops the call: the login state is cleared and the error
    that was passed goes through the [catch] of [startLogin]. *)
Lemma startLogin_stopped (err : UIError) (w : World) (t : Z) :
  loginTime w = Some t -> t <> 0 -> clock w - t < 1000 ->
  login (Some err) w
  = (fst (clearLoginState w),
     Threw (ThrownUIError
       (getFromLoginOperation ErrorFactory (ThrownUIError err)
          (loginRequestFailed ErrorCodes)))).
Proof.
  intros Ht Hnz Hsoon.
  unfold login, startLogin, _preventRedirectLoop. eff.
  rewrite Ht. unfold truthy_number.
  destruct (Z.eqb_spec t 0); [contradiction |].
  destruct (Z.ltb_spec (clock w - t) 1000); [| lia].
  rewrite clearLoginState_run. reflexivity.
Qed.

(** C1. [startLogin] called with a prior API error [err] while a login
    timestamp [t] is recorded.  If less than 1000 ms have passed since
    [t], the login state is cleared (session state removed, timestamp
    null, [isLoggedIn] false), no redirect is started (the trace is
    unchanged) and, the error factory handing back an error that already
    is a [UIError], [err] itself is thrown.  If 5000 ms or more have
    passed, or no error was given, or no timestamp is recorded, the
    redirect is performed from the untouched world with the current
    fragment as its state. *)
Theorem startLogin_redirect_loop_guard (api401Error : option UIError)
    (w : World) :
  (forall err t,
     api401Error = Some err ->
     loginTime w = Some t -> t <> 0 ->
     clock w - t < 1000 ->
     (forall ui code,
        getFromLoginOperation ErrorFactory (ThrownUIError ui) code = ui) ->
     login api401Error w = (fst (clearLoginState w), Threw (ThrownUIError err))
     /\ userStore (fst (login api401Error w)) = None
     /\ loginTime (fst (login api401Error w)) = None
     /\ isLoggedIn (fst (login api401Error w)) = false
     /\ calls (fst (login api401Error w)) = calls w)
  /\ ((api401Error = None
       \/ loginTime w = None
       \/ exists t, loginTime w = Some t /\ 5000 <= clock w - t) ->
      login api401Error w = redirected w
      /\ calls (fst (login api401Error w))
         = EvSigninRedirect (login_data (location_hash w)) :: calls w).
Proof.
  split.
  - intros err t -> Ht Hnz Hsoon Hpass.
    rewrite (startLogin_stopped err w t Ht Hnz Hsoon), Hpass.
    repeat split.
  - intros H.
    assert (login api401Error w = redirected w) as ->.
    { apply startLogin_passes.
      destruct H as [H | [H | (t & Ht & Hlate)]].
      - left. exact H.
      - right. left. rewrite H. reflexivity.
      - right. right. exists t. split; [exact Ht | lia]. }
    split; [reflexivity | apply redirected_calls].
Qed.

End Properties.

(** ** Worked instances *)

(** C2, as stated, fails for Cognito: the login callback returns a user
    with refresh token ["rt1"], and after [handleLoginResponse] that
    refresh token is in the stored session state. *)
Lemma cognito_callback_keeps_refresh_token :
  let returned := Sample.user "at1" (Some "rt1") (Some "#foo") in
  let w' :=
    fst (handleLoginResponse Sample.cognito_configuration Sample.codes
           Sample.factory
           (Sample.library (inl (Sample.failure None)) (inr returned))
           (Sample.returning true)) in
  is_cognito Sample.cognito_configuration = true
  /\ refresh_token returned = Some "rt1"
  /\ userStore w' = Some returned
  /\ has_refresh_token (userStore w') = true.
Proof. vm_compute. repeat split. Qed.

(** C6 on a session holding token ["at1"], and on a freshly opened
    page. *)
Lemma getAccessToken_present_or_refresh_witness :
  let lib := Sample.rejecting None in
  let u := Sample.user "at1" None None in
  let w := Sample.session (Some u) 1000 9000 in
  getAccessToken Sample.iframe_configuration Sample.codes Sample.factory
    lib w = (w, Returned (Some "at1"))
  /\ getAccessToken Sample.iframe_configuration Sample.codes Sample.factory
       lib Sample.fresh
     = refreshAccessToken Sample.iframe_configuration Sample.codes
         Sample.factory lib Sample.fresh.
Proof.
  cbv zeta. split.
  - apply (proj1 (getAccessToken_present_or_refresh
                    Sample.iframe_configuration Sample.codes Sample.factory
                    (Sample.rejecting None)
                    (Sample.session
                       (Some (Sample.user "at1" None None)) 1000 9000))
             (Sample.user "at1" None None)).
    + reflexivity.
    + discriminate.
  - apply (proj2 (getAccessToken_present_or_refresh
                    Sample.iframe_configuration Sample.codes Sample.factory
                    (Sample.rejecting None) Sample.fresh)).
    left. reflexivity.
Defined.

(** C7 on a freshly opened page. *)
Lemma refreshAccessToken_not_logged_in_witness :
  refreshAccessToken Sample.iframe_configuration Sample.codes Sample.factory
    (Sample.rejecting None) Sample.fresh
  = (Sample.fresh, Returned None).
Proof.
  apply refreshAccessToken_not_logged_in. reflexivity.
Defined.

(** C10 on a Cognito session that holds an access token only. *)
Lemma refreshAccessToken_cognito_without_refresh_token_witness :
  let w := Sample.session (Some (Sample.user "at1" None None)) 1000 9000 in
  refreshAccessToken Sample.cognito_configuration Sample.codes Sample.factory
    (Sample.rejecting None) w
  = (w, Returned (Some "at1")).
Proof.
  cbv zeta.
  apply (refreshAccessToken_cognito_without_refresh_token
           Sample.cognito_configuration Sample.codes Sample.factory
           (Sample.rejecting None)
           (Sample.session (Some (Sample.user "at1" None None)) 1000 9000));
    reflexivity.
Defined.

(** C4 on a Cognito session whose refresh token has expired, and on an
    iframe renewal that fails for a technical reason. *)
Lemma refreshAccessToken_renewal_rejected_witness :
  let w := Sample.session (Some (Sample.user "at1" (Some "rt1") None))
             1000 9000 in
  let expired :=
    refreshAccessToken Sample.cognito_configuration Sample.codes
      Sample.factory (Sample.rejecting (Some "invalid_grant")) w in
  let broken :=
    refreshAccessToken Sample.iframe_configuration Sample.codes
      Sample.factory (Sample.rejecting (Some "server_error")) w in
  (snd expired = Returned None
   /\ userStore (fst expired) = None
   /\ loginTime (fst expired) = None
   /\ isLoggedIn (fst expired) = false)
  /\ snd broken
     = Threw (ThrownUIError
         {| errorCode := "token_renewal_error";
            details := "request failed" |}).
Proof.
  cbv zeta. split.
  - destruct (refreshAccessToken_renewal_rejected
                Sample.cognito_configuration Sample.codes Sample.factory
                (Sample.rejecting (Some "invalid_grant"))
                (Sample.session
                   (Some (Sample.user "at1" (Some "rt1") None)) 1000 9000)
                (Sample.failure (Some "invalid_grant"))
                eq_refl eq_refl)
      as (Hcognito & _ & Hcleared & _).
    destruct (Hcognito eq_refl eq_refl) as (Hexpired & _).
    rewrite (Hexpired eq_refl). exact (conj eq_refl Hcleared).
  - destruct (refreshAccessToken_renewal_rejected
                Sample.iframe_configuration Sample.codes Sample.factory
                (Sample.rejecting (Some "server_error"))
                (Sample.session
                   (Some (Sample.user "at1" (Some "rt1") None)) 1000 9000)
                (Sample.failure (Some "server_error"))
                eq_refl eq_refl)
      as (_ & Hiframe & _ & _).
    destruct (Hiframe eq_refl) as (_ & Hother).
    rewrite Hother; [reflexivity | discriminate].
Defined.

(** C3 on a login response whose exchange is rejected. *)
Lemma handleLoginResponse_always_replaces_entry_witness :
  let run :=
    handleLoginResponse Sample.iframe_configuration Sample.codes
      Sample.factory (Sample.rejecting (Some "invalid_request"))
      (Sample.returning true) in
  calls (fst run) = [EvReplaceState "#"; EvSigninRedirectCallback]
  /\ visible_fragment (fst run) = "#"
  /\ visible_query (fst run) = [].
Proof.
  cbv zeta.
  destruct (handleLoginResponse_always_replaces_entry
              Sample.iframe_configuration Sample.codes Sample.factory
              (Sample.rejecting (Some "invalid_request"))
              (Sample.returning true) "s1" "{}")
    as (_ & Hquery & Hthrown & Hrejected).
  - reflexivity.
  - discriminate.
  - reflexivity.
  - discriminate.
  - destruct (Hrejected (Sample.failure (Some "invalid_request")) eq_refl)
      as [t Ht].
    destruct (Hthrown t Ht) as (Hcalls & Hfragment).
    exact (conj Hcalls (conj Hfragment Hquery)).
Defined.

(** C5 on a login response that brings back the fragment ["#foo"]. *)
Lemma handleLoginResponse_success_witness :
  let returned := Sample.user "at1" (Some "rt1") (Some "#foo") in
  let run :=
    handleLoginResponse Sample.iframe_configuration Sample.codes
      Sample.factory
      (Sample.library (inl (Sample.failure None)) (inr returned))
      (Sample.returning true) in
  snd run = Returned tt
  /\ visible_fragment (fst run) = "#foo"
  /\ visible_query (fst run) = []
  /\ isLoggedIn (fst run) = true
  /\ userStore (fst run) = Some (Sample.user "at1" (Some "") (Some "#foo"))
  /\ loginTime (fst run) = Some 1700000000250.
Proof.
  cbv zeta.
  destruct (handleLoginResponse_success
              Sample.iframe_configuration Sample.codes Sample.factory
              (Sample.library (inl (Sample.failure None))
                 (inr (Sample.user "at1" (Some "rt1") (Some "#foo"))))
              (Sample.returning true) "s1" "{}"
              (Sample.user "at1" (Some "rt1") (Some "#foo")) "#foo")
    as (Hreturn & Hfragment & Hquery & Hflag & Hstore & Htime & _).
  - reflexivity.
  - discriminate.
  - reflexivity.
  - discriminate.
  - reflexivity.
  - reflexivity.
  - rewrite Htime.
    exact (conj Hreturn (conj Hfragment (conj Hquery
             (conj Hflag (conj Hstore eq_refl))))).
Defined.

(** C9 on a page whose [state] parameter names nothing in the store. *)
Lemma handleLoginResponse_unknown_state_witness :
  handleLoginResponse Sample.iframe_configuration Sample.codes Sample.factory
    (Sample.rejecting None) (Sample.returning false)
  = (Sample.returning false, Returned tt).
Proof.
  apply (handleLoginResponse_unknown_state
           Sample.iframe_configuration Sample.codes Sample.factory
           (Sample.rejecting None) (Sample.returning false) "s1");
    reflexivity.
Defined.

(** C2 (amended) on a login response and on an iframe renewal that both
    bring a refresh token, for a provider other than Cognito. *)
Lemma refresh_token_kept_only_for_cognito_witness :
  let returned := Sample.user "at2" (Some "rt2") (Some "#foo") in
  let lib := Sample.library (inr returned) (inr returned) in
  let after_callback :=
    fst (handleLoginResponse Sample.iframe_configuration Sample.codes
           Sample.factory lib (Sample.returning true)) in
  let after_renewal :=
    fst (refreshAccessToken Sample.iframe_configuration Sample.codes
           Sample.factory lib (Sample.session None 1000 9000)) in
  has_refresh_token (userStore after_callback) = false
  /\ has_refresh_token (userStore after_renewal) = false.
Proof.
  cbv zeta. split.
  - destruct (refresh_token_kept_only_for_cognito
                Sample.iframe_configuration Sample.codes Sample.factory
                (Sample.library
                   (inr (Sample.user "at2" (Some "rt2") (Some "#foo")))
                   (inr (Sample.user "at2" (Some "rt2") (Some "#foo"))))
                (Sample.returning true))
      as (Hcallback & _).
    destruct (Hcallback "s1" "{}"
                (Sample.user "at2" (Some "rt2") (Some "#foo")))
      as (Hother & _).
    + reflexivity.
    + discriminate.
    + reflexivity.
    + discriminate.
    + reflexivity.
    + exact (proj2 (Hother eq_refl)).
  - destruct (refresh_token_kept_only_for_cognito
                Sample.iframe_configuration Sample.codes Sample.factory
                (Sample.library
                   (inr (Sample.user "at2" (Some "rt2") (Some "#foo")))
                   (inr (Sample.user "at2" (Some "rt2") (Some "#foo"))))
                (Sample.session None 1000 9000))
      as (_ & Hrenewal).
    apply (Hrenewal eq_refl eq_refl _ (Some "at2")).
    reflexivity.
Defined.

(** C1 on a 401 that arrives 500 ms after the login, and on one that
    arrives 5000 ms after it. *)
Lemma startLogin_redirect_loop_guard_witness :
  let early := Sample.session None 1000 1500 in
  let late := Sample.session None 1000 6000 in
  let lib := Sample.rejecting None in
  startLogin Sample.codes Sample.factory lib (Some Sample.api401) early
  = (fst (clearLoginState early), Threw (ThrownUIError Sample.api401))
  /\ calls (fst (startLogin Sample.codes Sample.factory lib
                   (Some Sample.api401) late))
     = [EvSigninRedirect {| data_hash := "#company=2" |}].
Proof.
  cbv zeta. split.
  - apply (proj1 (startLogin_redirect_loop_guard Sample.codes Sample.factory
                    (Sample.rejecting None) (Some Sample.api401)
                    (Sample.session None 1000 1500))
             Sample.api401 1000).
    + reflexivity.
    + reflexivity.
    + discriminate.
    + reflexivity.
    + reflexivity.
  - apply (proj2 (startLogin_redirect_loop_guard Sample.codes Sample.factory
                    (Sample.rejecting None) (Some Sample.api401)
                    (Sample.session None 1000 6000))).
    right. right. exists 1000. split; [reflexivity | discriminate].
Defined.

(** ** Further properties of the class *)

Lemma append_x_length (s : string) :
  String.length (String.append s "x") = S (String.length s).
Proof.
  induction s as [| a s IH]; [reflexivity |].
  change (String.append (String a s) "x")
    with (String a (String.append s "x")).
  cbn [String.length]. rewrite IH. reflexivity.
Qed.

Lemma append_x_differs (s : string) : String.append s "x" <> s.
Proof.
  intros H. apply (f_equal String.length) in H.
  rewrite append_x_length in H. lia.
Qed.

Lemma append_x_truthy (s : string) : truthy (String.append s "x") = true.
Proof. destruct s; reflexivity. Qed.

Lemma truthy_string_content (o : option string) (s : string) :
  truthy_string o = Some s <-> o = Some s /\ s <> "".
Proof.
  unfold truthy_string, truthy. split.
  - destruct o as [x |]; [| discriminate].
    destruct (String.eqb_spec x ""); cbn [negb]; [discriminate |].
    intros H. injection H as <-. split; [reflexivity | assumption].
  - intros [-> Hne].
    destruct (String.eqb_spec s ""); [contradiction | reflexivity].
Qed.

Section Further.

Variable configuration : OAuthConfiguration.
Variable ErrorCodes : ErrorCodesTable.
Variable ErrorFactory : ErrorFactoryMethods.
Variable userManager : UserManagerLib.

Local Abbreviation get :=
  (getAccessToken configuration ErrorCodes ErrorFactory userManager).
Local Abbreviation refresh :=
  (refreshAccessToken configuration ErrorCodes ErrorFactory userManager).
Local Abbreviation login :=
  (startLogin ErrorCodes ErrorFactory userManager).
Local Abbreviation handle :=
  (handleLoginResponse configuration ErrorCodes ErrorFactory userManager).

(** *** User info *)

(** X1. [getUserInfo] changes nothing and never throws.  It returns the
    two names exactly when a user is stored whose profile has a non-empty
    given name and a non-empty family name; in every other case (no user,
    a name missing or empty) it returns null. *)
Theorem getUserInfo_reads_names (w : World) :
  fst (getUserInfo w) = w
  /\ (forall info,
        snd (getUserInfo w) = Returned (Some info)
        <-> exists u, userStore w = Some u
              /\ given_name (profile u) = Some (givenName info)
              /\ family_name (profile u) = Some (familyName info)
              /\ givenName info <> "" /\ familyName info <> "")
  /\ (snd (getUserInfo w) = Returned None
      \/ exists info, snd (getUserInfo w) = Returned (Some info)).
Proof.
  unfold getUserInfo. eff.
  destruct (userStore w) as [u |] eqn:Hu.
  - destruct (truthy_string (given_name (profile u))) as [g |] eqn:Hg;
      [destruct (truthy_string (family_name (profile u))) as [f |] eqn:Hf |].
    + apply truthy_string_content in Hg as [Hg Hgne].
      apply truthy_string_content in Hf as [Hf Hfne].
      split; [reflexivity |]. split; [| right; eexists; reflexivity].
      intros [g' f']. cbn [snd givenName familyName]. split.
      * intros H. injection H as <- <-. exists u. repeat split; assumption.
      * intros (u' & Hu' & Hg' & Hf' & _). injection Hu' as <-.
        congruence.
    + split; [reflexivity |]. split; [| left; reflexivity].
      intros info. split; [discriminate |].
      intros (u' & Hu' & _ & Hf' & _ & Hfne). injection Hu' as <-.
      assert (truthy_string (family_name (profile u))
              = Some (familyName info)) as Hsome
        by (apply truthy_string_content; split; assumption).
      congruence.
    + split; [reflexivity |]. split; [| left; reflexivity].
      intros info. split; [discriminate |].
      intros (u' & Hu' & Hg' & _ & Hgne & _). injection Hu' as <-.
      assert (truthy_string (given_name (profile u))
              = Some (givenName info)) as Hsome
        by (apply truthy_string_content; split; assumption).
      congruence.
  - split; [reflexivity |]. split; [| left; reflexivity].
    intros info. split; [discriminate |].
    intros (u' & Hu' & _). discriminate Hu'.
Qed.

(** *** Expiring the access token *)

(** X2. [expireAccessToken] on a stored user replaces the access token
    by a different one, one character longer, and stores the user with
    every other field as it was; the flag, the timestamp and the trace are
    untouched.  Without a stored user it does nothing. *)
Theorem expireAccessToken_corrupts_only_the_token (w : World) :
  (forall u, userStore w = Some u ->
     expireAccessToken w
     = (set_userStore (Some (corrupt_access_token u)) w, Returned tt)
     /\ access_token (corrupt_access_token u) <> access_token u
     /\ String.length (access_token (corrupt_access_token u))
        = S (String.length (access_token u))
     /\ refresh_token (corrupt_access_token u) = refresh_token u
     /\ profile (corrupt_access_token u) = profile u
     /\ isLoggedIn (fst (expireAccessToken w)) = isLoggedIn w
     /\ loginTime (fst (expireAccessToken w)) = loginTime w
     /\ calls (fst (expireAccessToken w)) = calls w)
  /\ (userStore w = None -> expireAccessToken w = (w, Returned tt)).
Proof.
  split.
  - intros u Hu. unfold expireAccessToken. eff. rewrite Hu.
    cbn [corrupt_access_token access_token refresh_token profile].
    split; [reflexivity |].
    split; [apply append_x_differs |].
    split; [apply append_x_length |].
    repeat split.
  - intros Hu. unfold expireAccessToken. eff. rewrite Hu. reflexivity.
Qed.

(** X3. After [expireAccessToken], [getAccessToken] hands out the
    corrupted token and attempts no renewal: the class itself does not
    notice the expiry.  This holds for every stored user, also one whose
    access token was empty. *)
Theorem getAccessToken_after_expiry (w : World) (u : User) :
  userStore w = Some u ->
  let w' := fst (expireAccessToken w) in
  get w' = (w', Returned (Some (String.append (access_token u) "x"))).
Proof.
  intros Hu. cbv zeta.
  unfold expireAccessToken. eff. rewrite Hu. cbn [fst].
  unfold getAccessToken. eff.
  cbn [userStore set_userStore present_access_token corrupt_access_token
       access_token truthy_string].
  rewrite append_x_truthy. reflexivity.
Qed.

(** *** Logout signalled by another tab *)

(** X4. After [onExternalLogout] there is no token to hand out and none
    is fetched: [getAccessToken], [refreshAccessToken] and [getUserInfo]
    return null from the cleared world without any library call, and the
    logout itself made no call and left the visible URL alone. *)
Theorem nothing_after_external_logout (w : World) :
  let w' := fst (onExternalLogout w) in
  get w' = (w', Returned None)
  /\ refresh w' = (w', Returned None)
  /\ getUserInfo w' = (w', Returned None)
  /\ calls w' = calls w
  /\ visible_query w' = visible_query w
  /\ visible_fragment w' = visible_fragment w.
Proof.
  cbv zeta. unfold onExternalLogout. rewrite clearLoginState_run.
  cbn [fst]. repeat split.
Qed.

(** *** The redirect-loop guard *)

Lemma calls_not_extended (ev : Event) (l : list Event) : l <> ev :: l.
Proof.
  intros H. apply (f_equal (@List.length Event)) in H.
  cbn [List.length] in H. lia.
Qed.

(** X5. With a prior error and a recorded timestamp [t], the guard's
    threshold is exactly 1000 ms: [startLogin] makes no call at all when
    less than 1000 ms have passed (a clock that went backwards included),
    and starts the redirect when 1000 ms or more have passed.  A
    timestamp of 0 is read as no timestamp: the redirect is started
    whatever the clock says. *)
Theorem startLogin_guard_threshold (err : UIError) (w : World) :
  (forall t, loginTime w = Some t -> t <> 0 ->
     (calls (fst (login (Some err) w)) = calls w <-> clock w - t < 1000)
     /\ (calls (fst (login (Some err) w))
         = EvSigninRedirect (login_data (location_hash w)) :: calls w
         <-> 1000 <= clock w - t))
  /\ (loginTime w = Some 0 ->
      calls (fst (login (Some err) w))
      = EvSigninRedirect (login_data (location_hash w)) :: calls w).
Proof.
  split.
  - intros t Ht Hnz.
    destruct (Z.lt_ge_cases (clock w - t) 1000) as [Hsoon | Hlate].
    + rewrite (startLogin_stopped ErrorCodes ErrorFactory userManager
                 err w t Ht Hnz Hsoon).
      cbn [fst]. rewrite clearLoginState_run. cbn [fst calls set_isLoggedIn
        set_loginTime set_userStore].
      split; split; intros H; try reflexivity; try assumption; try lia.
      exfalso. exact (calls_not_extended _ _ H).
    + rewrite (startLogin_passes ErrorCodes ErrorFactory userManager
                 (Some err) w)
        by (right; right; exists t; split; assumption).
      cbn [fst]. change (calls (settled _ _ w)) with
        (EvSigninRedirect (login_data (location_hash w)) :: calls w).
      split; split; intros H; try reflexivity; try assumption; try lia.
      exfalso. symmetry in H. exact (calls_not_extended _ _ H).
  - intros Hzero.
    rewrite (startLogin_passes ErrorCodes ErrorFactory userManager
               (Some err) w)
      by (right; left; rewrite Hzero; reflexivity).
    reflexivity.
Qed.

(** X6. The guard stops one call only.  When it has stopped
    [startLogin], the login state is cleared, and a retry with the same
    error, whenever it is made, starts the redirect. *)
Theorem startLogin_retry_after_guard (err : UIError) (w : World) (t : Z)
    (later : Z) :
  loginTime w = Some t -> t <> 0 -> clock w - t < 1000 ->
  let stopped := fst (login (Some err) w) in
  calls stopped = calls w
  /\ calls (fst (login (Some err) (set_clock later stopped)))
     = EvSigninRedirect (login_data (location_hash w)) :: calls w.
Proof.
  intros Ht Hnz Hsoon. cbv zeta.
  rewrite (startLogin_stopped ErrorCodes ErrorFactory userManager
             err w t Ht Hnz Hsoon).
  cbn [fst]. rewrite clearLoginState_run. cbn [fst].
  split; [reflexivity |].
  rewrite (startLogin_passes ErrorCodes ErrorFactory userManager (Some err))
    by (right; left; reflexivity).
  reflexivity.
Qed.

(** *** The login round trip *)

Lemma location_hash_of_login_data (w0 : World) (q : list (string * string))
    (w : World) :
  location_hash
    (set_visible q (data_hash (login_data (location_hash w0))) w)
  = location_hash w0.
Proof.
  unfold location_hash at 1. cbn [visible_fragment set_visible].
  unfold login_data. cbn [data_hash].
  destruct (location_hash w0) as [| a rest] eqn:Hh; [reflexivity |].
  cbn [String.length Nat.ltb Nat.leb].
  destruct (String.eqb_spec (String a rest) "#") as [Heq |]; [| reflexivity].
  exfalso. unfold location_hash in Hh.
  destruct (String.eqb_spec (visible_fragment w0) "#"); congruence.
Qed.

(** X7. The fragment survives the login round trip.  [startLogin] hands
    the library [login_data] of the current [location.hash]; when the
    login response brings that state back, [handleLoginResponse] leaves a
    page whose [location.hash] is the one the login started from, with the
    query of the response gone. *)
Theorem login_round_trip_restores_fragment (w0 w : World)
    (st stored : string) (user : User) :
  URLSearchParams_get (visible_query w) "state" = Some st -> st <> "" ->
  stateStore w !! st = Some stored -> stored <> "" ->
  reply_result (lib_signinRedirectCallback userManager w) = inr user ->
  user_state user = Some (login_data (location_hash w0)) ->
  calls (fst (login None w0))
  = EvSigninRedirect (login_data (location_hash w0)) :: calls w0
  /\ location_hash (fst (handle w)) = location_hash w0
  /\ visible_query (fst (handle w)) = [].
Proof.
  intros Hst Hne Hstored Hne' He Hstate.
  split.
  - rewrite (startLogin_passes ErrorCodes ErrorFactory userManager None w0)
      by (left; reflexivity).
    reflexivity.
  - destruct (login_data (location_hash w0)) as [h] eqn:Hdata.
    rewrite (handleLoginResponse_resolved configuration ErrorCodes
               ErrorFactory userManager w st stored user h
               Hst Hne Hstored Hne' He Hstate).
    cbn [fst]. split; [| reflexivity].
    replace h with (data_hash (login_data (location_hash w0)))
      by (rewrite Hdata; reflexivity).
    apply location_hash_of_login_data.
Qed.

(** *** More on the login response *)

Lemma calls_not_extended_twice (a b : Event) (l : list Event) :
  a :: b :: l <> l.
Proof.
  intros H. apply (f_equal (@List.length Event)) in H.
  cbn [List.length] in H. lia.
Qed.

(** The trace of a recognised login response. *)
Lemma handleLoginResponse_recognised_calls (w : World) (st stored : string) :
  URLSearchParams_get (visible_query w) "state" = Some st -> st <> "" ->
  stateStore w !! st = Some stored -> stored <> "" ->
  exists target,
    calls (fst (handle w))
    = EvReplaceState target :: EvSigninRedirectCallback :: calls w.
Proof.
  intros Hst Hne Hstored Hne'.
  destruct (reply_result (lib_signinRedirectCallback userManager w))
    as [e | user] eqn:He.
  - rewrite (handleLoginResponse_rejected configuration ErrorCodes
               ErrorFactory userManager w st stored e
               Hst Hne Hstored Hne' He).
    exists "#". reflexivity.
  - destruct (user_state user) as [[h] |] eqn:Hstate.
    + rewrite (handleLoginResponse_resolved configuration ErrorCodes
                 ErrorFactory userManager w st stored user h
                 Hst Hne Hstored Hne' He Hstate).
      exists h. reflexivity.
    + destruct (handleLoginResponse_stateless configuration ErrorCodes
                  ErrorFactory userManager w st stored user
                  Hst Hne Hstored Hne' He Hstate) as [t ->].
      exists "#". reflexivity.
Qed.

(** X8. [handleLoginResponse] returns with the world untouched exactly
    on the page loads it does not recognise as a login response: no
    [state] parameter or an empty one, or no stored redirect state (or an
    empty one) under the name the parameter gives. *)
Theorem handleLoginResponse_untouched_iff (w : World) :
  handle w = (w, Returned tt)
  <-> (truthy_string (URLSearchParams_get (visible_query w) "state") = None
       \/ exists st,
            URLSearchParams_get (visible_query w) "state" = Some st
            /\ truthy_string (stateStore w !! st) = None).
Proof.
  destruct (truthy_string (URLSearchParams_get (visible_query w) "state"))
    as [st |] eqn:Hparam.
  - pose proof Hparam as Hparam'.
    apply truthy_string_content in Hparam' as [Hst Hne].
    destruct (truthy_string (stateStore w !! st)) as [stored |] eqn:Hstored.
    + pose proof Hstored as Hstored'.
      apply truthy_string_content in Hstored' as [Hlookup Hne'].
      destruct (handleLoginResponse_recognised_calls w st stored
                  Hst Hne Hlookup Hne') as [target Hcalls].
      split.
      * intros H. rewrite H in Hcalls. cbn [fst] in Hcalls.
        symmetry in Hcalls.
        exfalso. exact (calls_not_extended_twice _ _ _ Hcalls).
      * intros [H | (st' & Hst' & Hnone)]; [discriminate H |].
        rewrite Hst in Hst'. injection Hst' as <-. congruence.
    + split; [| intros _].
      * intros _. right. exists st. split; assumption.
      * unfold handleLoginResponse. eff. rewrite Hparam. eff.
        rewrite Hstored. reflexivity.
  - split; [intros _; left; reflexivity | intros _].
    unfold handleLoginResponse. eff. rewrite Hparam. reflexivity.
Qed.

(** X9. On a recognised login response, [isLoggedIn] is set and the
    login timestamp is recorded only if [handleLoginResponse] returns:
    when it throws, both are as they were before the call. *)
Theorem handleLoginResponse_marks_login_only_on_return (w : World)
    (st stored : string) :
  URLSearchParams_get (visible_query w) "state" = Some st -> st <> "" ->
  stateStore w !! st = Some stored -> stored <> "" ->
  let w' := fst (handle w) in
  (forall t, snd (handle w) = Threw t ->
     isLoggedIn w' = isLoggedIn w /\ loginTime w' = loginTime w)
  /\ (snd (handle w) = Returned tt ->
      isLoggedIn w' = true /\ loginTime w' = Some (clock w')).
Proof.
  intros Hst Hne Hstored Hne'. cbv zeta.
  destruct (reply_result (lib_signinRedirectCallback userManager w))
    as [e | user] eqn:He.
  - rewrite (handleLoginResponse_rejected configuration ErrorCodes
               ErrorFactory userManager w st stored e
               Hst Hne Hstored Hne' He).
    split; [intros _ _; split; reflexivity | intros H; discriminate H].
  - destruct (user_state user) as [[h] |] eqn:Hstate.
    + rewrite (handleLoginResponse_resolved configuration ErrorCodes
                 ErrorFactory userManager w st stored user h
                 Hst Hne Hstored Hne' He Hstate).
      split; [intros t H; discriminate H | intros _; split; reflexivity].
    + destruct (handleLoginResponse_stateless configuration ErrorCodes
                  ErrorFactory userManager w st stored user
                  Hst Hne Hstored Hne' He Hstate) as [t ->].
      split; [intros _ _; split; reflexivity | intros H; discriminate H].
Qed.

(** X10. The tokens are stored before the saved fragment is read.  When
    the exchange resolves with a user whose [state] is undefined,
    [handleLoginResponse] throws, yet the user is in the store, and
    [getAccessToken] hands out its access token without a renewal while
    [isLoggedIn] is still what it was. *)
Theorem handleLoginResponse_stores_before_reading_state (w : World)
    (st stored : string) (user : User) :
  URLSearchParams_get (visible_query w) "state" = Some st -> st <> "" ->
  stateStore w !! st = Some stored -> stored <> "" ->
  reply_result (lib_signinRedirectCallback userManager w) = inr user ->
  user_state user = None ->
  access_token user <> "" ->
  let w' := fst (handle w) in
  (exists t, snd (handle w) = Threw t)
  /\ isLoggedIn w' = isLoggedIn w
  /\ get w' = (w', Returned (Some (access_token user))).
Proof.
  intros Hst Hne Hstored Hne' He Hstate Htoken. cbv zeta.
  destruct (handleLoginResponse_stateless configuration ErrorCodes
              ErrorFactory userManager w st stored user
              Hst Hne Hstored Hne' He Hstate) as [t ->].
  cbn [fst snd].
  split; [exists t; reflexivity |]. split; [reflexivity |].
  unfold getAccessToken. eff.
  cbn [userStore set_visible log set_userStore].
  assert (present_access_token
            (Some (if negb (is_cognito configuration)
                   then clear_refresh_token user else user))
          = Some (access_token user)) as ->.
  { destruct (negb (is_cognito configuration));
      cbn [present_access_token clear_refresh_token access_token];
      apply truthy_string_some; assumption. }
  reflexivity.
Qed.

(** X11. After a login response that returns, the session is usable at
    once: [getAccessToken] hands out the access token the exchange
    brought, with no renewal, and [getUserInfo] gives the names of the
    user's profile, for Cognito and for every other provider. *)
Theorem session_after_login_response (w : World) (st stored : string)
    (user : User) (h given family : string) :
  URLSearchParams_get (visible_query w) "state" = Some st -> st <> "" ->
  stateStore w !! st = Some stored -> stored <> "" ->
  reply_result (lib_signinRedirectCallback userManager w) = inr user ->
  user_state user = Some {| data_hash := h |} ->
  access_token user <> "" ->
  given_name (profile user) = Some given -> given <> "" ->
  family_name (profile user) = Some family -> family <> "" ->
  let w' := fst (handle w) in
  get w' = (w', Returned (Some (access_token user)))
  /\ getUserInfo w'
     = (w', Returned (Some {| givenName := given; familyName := family |})).
Proof.
  intros Hst Hne Hstored Hne' He Hstate Htoken Hg Hgne Hf Hfne. cbv zeta.
  rewrite (handleLoginResponse_resolved configuration ErrorCodes
             ErrorFactory userManager w st stored user h
             Hst Hne Hstored Hne' He Hstate).
  cbn [fst]. split.
  - unfold getAccessToken. eff.
    cbn [userStore set_visible log set_userStore set_loginTime
         set_isLoggedIn].
    assert (present_access_token
              (Some (if negb (is_cognito configuration)
                     then clear_refresh_token user else user))
            = Some (access_token user)) as ->.
    { destruct (negb (is_cognito configuration));
        cbn [present_access_token clear_refresh_token access_token];
        apply truthy_string_some; assumption. }
    reflexivity.
  - unfold getUserInfo. eff.
    cbn [userStore set_visible log set_userStore set_loginTime
         set_isLoggedIn].
    assert (profile (if negb (is_cognito configuration)
                     then clear_refresh_token user else user)
            = profile user) as ->
      by (destruct (negb (is_cognito configuration)); reflexivity).
    rewrite Hg, Hf, (truthy_string_some given Hgne),
      (truthy_string_some family Hfne).
    reflexivity.
Qed.

(** X12. A 401 right after the login meets the guard.  Once a login
    response has returned at a time [clock] other than 0, a [startLogin]
    with a prior error made less than 1000 ms later starts no redirect and
    clears what the login response had set up. *)
Theorem startLogin_right_after_login_response (w : World)
    (st stored : string) (user : User) (h : string) (err : UIError)
    (now : Z) :
  URLSearchParams_get (visible_query w) "state" = Some st -> st <> "" ->
  stateStore w !! st = Some stored -> stored <> "" ->
  reply_result (lib_signinRedirectCallback userManager w) = inr user ->
  user_state user = Some {| data_hash := h |} ->
  let w' := fst (handle w) in
  clock w' <> 0 ->
  now - clock w' < 1000 ->
  let again := fst (login (Some err) (set_clock now w')) in
  calls again = calls w'
  /\ userStore again = None
  /\ isLoggedIn again = false
  /\ loginTime again = None.
Proof.
  intros Hst Hne Hstored Hne' He Hstate. cbv zeta.
  rewrite (handleLoginResponse_resolved configuration ErrorCodes
             ErrorFactory userManager w st stored user h
             Hst Hne Hstored Hne' He Hstate).
  cbn [fst]. intros Hclock Hsoon.
  cbn [clock set_visible log set_loginTime set_isLoggedIn set_userStore]
    in Hclock, Hsoon.
  erewrite startLogin_stopped;
    [| reflexivity | exact Hclock | exact Hsoon].
  cbn [fst]. rewrite clearLoginState_run. repeat split.
Qed.

(** *** More on the silent renewal *)

Lemma refreshAccessToken_frame (w : World) :
  (calls (fst (refresh w)) = calls w
   \/ calls (fst (refresh w)) = EvSigninSilent :: calls w)
  /\ visible_query (fst (refresh w)) = visible_query w
  /\ visible_fragment (fst (refresh w)) = visible_fragment w
  /\ (isLoggedIn (fst (refresh w)) = true -> isLoggedIn w = true)
  /\ (loginTime (fst (refresh w)) = loginTime w
      \/ loginTime (fst (refresh w)) = None).
Proof.
  unfold refreshAccessToken. eff.
  destruct (isLoggedIn w) eqn:Hl; [| cbn; rewrite Hl; auto 10].
  destruct (is_cognito configuration) eqn:Hc; eff.
  - destruct (has_refresh_token (userStore w)) eqn:Hr.
    + destruct (reply_result (lib_signinSilent userManager w))
        as [e | u] eqn:He.
      * rewrite (viaRefreshToken_rejected ErrorCodes ErrorFactory
                   userManager w e He).
        destruct (decide (error e = Some (sessionExpired ErrorCodes))).
        -- rewrite clearLoginState_run. eff. cbn. auto 10.
        -- cbn. auto 10.
      * unfold _performAccessTokenRenewalViaRefreshToken. eff.
        rewrite (signinSilent_resolved userManager w u He). eff.
        destruct (present_access_token _); cbn; auto 10.
    + eff. destruct (present_access_token _); cbn; auto 10.
  - destruct (reply_result (lib_signinSilent userManager w))
      as [e | u] eqn:He.
    + rewrite (viaIframeRedirect_rejected ErrorCodes ErrorFactory
                 userManager w e He).
      destruct (decide (error e = Some (loginRequired ErrorCodes))).
      * rewrite clearLoginState_run. eff. cbn. auto 10.
      * cbn. auto 10.
    + rewrite (viaIframeRedirect_resolved ErrorCodes ErrorFactory
                 userManager w u He).
      eff.
      destruct (userStore (settled EvSigninSilent
                  (lib_signinSilent userManager w) w)) as [v |] eqn:Hv.
      * destruct (has_refresh_token (Some v)); eff;
          destruct (present_access_token _); cbn; auto 10.
      * eff. destruct (present_access_token _); cbn; auto 10.
Qed.

(** X13. A token request makes at most one call, a silent renewal.
    For [refreshAccessToken] and for [getAccessToken] alike: the trace is
    unchanged or longer by one [signinSilent]; no redirect is started and
    the visible URL is as before; [isLoggedIn] is never switched on; and
    the login timestamp is kept or reset to null, never set. *)
Theorem token_requests_only_renew (run : Async (option string)) (w : World) :
  run = refresh \/ run = get ->
  let w' := fst (run w) in
  (calls w' = calls w \/ calls w' = EvSigninSilent :: calls w)
  /\ visible_query w' = visible_query w
  /\ visible_fragment w' = visible_fragment w
  /\ (isLoggedIn w' = true -> isLoggedIn w = true)
  /\ (loginTime w' = loginTime w \/ loginTime w' = None).
Proof.
  intros [-> | ->]; cbv zeta.
  - apply refreshAccessToken_frame.
  - unfold getAccessToken. eff.
    destruct (present_access_token (userStore w)).
    + cbn [fst]. auto 10.
    + apply refreshAccessToken_frame.
Qed.


(** X15. An expected renewal failure ends the session for good: after
    a session-expired failure under the refresh-token strategy, or a
    login-required failure under the iframe strategy, a further
    [refreshAccessToken] or [getAccessToken] returns null and makes no
    call. *)
Theorem no_renewal_after_expected_failure (w : World) (e : JsError) :
  isLoggedIn w = true ->
  reply_result (lib_signinSilent userManager w) = inl e ->
  (is_cognito configuration = true
   /\ has_refresh_token (userStore w) = true
   /\ error e = Some (sessionExpired ErrorCodes))
  \/ (is_cognito configuration = false
      /\ error e = Some (loginRequired ErrorCodes)) ->
  let w' := fst (refresh w) in
  snd (refresh w) = Returned None
  /\ refresh w' = (w', Returned None)
  /\ get w' = (w', Returned None).
Proof.
  intros Hl He Hcase. cbv zeta.
  assert (refresh w
          = (fst (clearLoginState
                    (settled EvSigninSilent
                       (lib_signinSilent userManager w) w)),
             Returned None)) as ->.
  { unfold refreshAccessToken. eff. rewrite Hl.
    destruct Hcase as [(Hc & Hr & Hcode) | (Hc & Hcode)]; rewrite Hc; eff.
    - rewrite Hr, (viaRefreshToken_rejected ErrorCodes ErrorFactory
                     userManager w e He).
      destruct (decide (error e = Some (sessionExpired ErrorCodes)));
        [reflexivity | contradiction].
    - rewrite (viaIframeRedirect_rejected ErrorCodes ErrorFactory
                 userManager w e He).
      destruct (decide (error e = Some (loginRequired ErrorCodes)));
        [reflexivity | contradiction]. }
  rewrite clearLoginState_run. cbn [fst snd].
  repeat split.
Qed.

End Further.

(** *** Logout *)

Section Logout.

Variable configuration : OAuthConfiguration.
Variable ErrorCodes : ErrorCodesTable.
Variable ErrorFactory : ErrorFactoryMethods.
Variable userManager : UserManagerLib.
Variable lib_signoutRedirect : World -> LibReply unit.
Variable getFromLogoutOperation : Thrown -> string -> UIError.
Variable logoutRequestFailed : string.

Local Abbreviation logout :=
  (startLogout configuration lib_signoutRedirect getFromLogoutOperation
     logoutRequestFailed).
Local Abbreviation refresh :=
  (refreshAccessToken configuration ErrorCodes ErrorFactory userManager).

Lemma startLogout_cognito_run (w : World) (sent : list Departure) :
  is_cognito configuration = true ->
  logout (w, sent)
  = ((fst (clearLoginState w),
      LocationReplaced (_getCognitoEndSessionRequestUrl configuration)
        :: LoggedOutRaised :: sent),
     Returned tt).
Proof.
  intros Hc. unfold startLogout, depart. eff.
  rewrite clearLoginState_run, Hc. reflexivity.
Qed.

Lemma startLogout_other_run (w : World) (sent : list Departure) :
  is_cognito configuration = false ->
  let cleared := fst (clearLoginState w) in
  let r := lib_signoutRedirect cleared in
  logout (w, sent)
  = ((set_clock (reply_clock r)
        (set_stateStore (reply_states r)
           (set_userStore (reply_user r) cleared)),
      SignoutRedirected :: LoggedOutRaised :: sent),
     match reply_result r with
     | inr _ => Returned tt
     | inl e =>
         Threw (ThrownUIError
           (getFromLogoutOperation (ThrownError e) logoutRequestFailed))
     end).
Proof.
  intros Hc. cbv zeta. unfold startLogout, depart, signoutRedirect. eff.
  rewrite clearLoginState_run, Hc. cbn [fst snd].
  destruct (reply_result _) as [e | []]; reflexivity.
Qed.

(** X16. Logout for Cognito.  [startLogout] clears the login state,
    notifies the other tabs, then replaces the location by the custom
    logout endpoint followed by [?client_id=], the client id,
    [&logout_uri=] and the post-logout redirect URI, in that order.  It
    returns whatever the library's end-session redirect would answer: the
    only departures added are the notification and the replacement. *)
Theorem startLogout_cognito (w : World) (sent : list Departure) :
  is_cognito configuration = true ->
  let out := logout (w, sent) in
  snd out = Returned tt
  /\ fst (fst out) = fst (clearLoginState w)
  /\ snd (fst out)
     = LocationReplaced
         (String.append (customLogoutEndpoint configuration)
            (String.append "?client_id="
               (String.append (clientId configuration)
                  (String.append "&logout_uri="
                     (postLogoutRedirectUri configuration)))))
       :: LoggedOutRaised :: sent.
Proof.
  intros Hc. cbv zeta. rewrite (startLogout_cognito_run w sent Hc).
  cbn [fst snd]. repeat split.
Qed.

(** X17. Logout for the other providers.  [startLogout] notifies the
    other tabs and then asks the library for the end-session redirect, in
    the world where the user is already removed from the store.  It
    returns when the library resolves; when the library rejects, the
    rejection goes to [getFromLogoutOperation] with the logout code and
    the result is thrown.  The location is never replaced by the class
    itself. *)
Theorem startLogout_end_session_redirect (w : World)
    (sent : list Departure) :
  is_cognito configuration = false ->
  let r := lib_signoutRedirect (fst (clearLoginState w)) in
  let out := logout (w, sent) in
  snd (fst out) = SignoutRedirected :: LoggedOutRaised :: sent
  /\ userStore (fst (clearLoginState w)) = None
  /\ (reply_result r = inr tt -> snd out = Returned tt)
  /\ (forall e, reply_result r = inl e ->
      snd out
      = Threw (ThrownUIError
          (getFromLogoutOperation (ThrownError e) logoutRequestFailed))).
Proof.
  intros Hc. cbv zeta. rewrite (startLogout_other_run w sent Hc).
  cbn [fst snd]. split; [reflexivity |]. split; [reflexivity |].
  split.
  - intros ->. reflexivity.
  - intros e ->. reflexivity.
Qed.

(** X18. Whatever the provider and whether or not the redirect
    succeeds, after [startLogout] the other tabs have been notified,
    [isLoggedIn] is false and the login timestamp is null, so that a
    following [refreshAccessToken] returns null without a call. *)
Theorem logged_out_after_startLogout (w : World) (sent : list Departure) :
  let out := logout (w, sent) in
  let w' := fst (fst out) in
  In LoggedOutRaised (snd (fst out))
  /\ isLoggedIn w' = false
  /\ loginTime w' = None
  /\ refresh w' = (w', Returned None).
Proof.
  cbv zeta.
  assert (let w' := fst (fst (logout (w, sent))) in
          In LoggedOutRaised (snd (fst (logout (w, sent))))
          /\ isLoggedIn w' = false /\ loginTime w' = None) as H.
  { destruct (is_cognito configuration) eqn:Hc.
    - rewrite (startLogout_cognito_run w sent Hc).
      rewrite clearLoginState_run. cbn. auto.
    - rewrite (startLogout_other_run w sent Hc).
      rewrite clearLoginState_run. cbn. auto. }
  cbv zeta in H. destruct H as (Hin & Hflag & Htime).
  repeat split; try assumption.
  generalize dependent (fst (fst (logout (w, sent)))).
  intros w' Hflag _.
  unfold refreshAccessToken. eff. rewrite Hflag. reflexivity.
Qed.

End Logout.

(** ** Further worked instances *)

(** X1 on a session whose user has both names. *)
Lemma getUserInfo_reads_names_witness :
  snd (getUserInfo
         (Sample.session (Some (Scenario.ada "at1" None None)) 1000 9000))
  = Returned (Some {| givenName := "Ada"; familyName := "Byron" |}).
Proof.
  apply (proj2 (proj1 (proj2 (getUserInfo_reads_names
                  (Sample.session (Some (Scenario.ada "at1" None None))
                     1000 9000)))
                  {| givenName := "Ada"; familyName := "Byron" |})).
  exists (Scenario.ada "at1" None None).
  repeat split; discriminate.
Defined.

(** X2 on a session holding token ["at1"]. *)
Lemma expireAccessToken_corrupts_only_the_token_witness :
  let w := Sample.session (Some (Sample.user "at1" (Some "rt1") None))
             1000 9000 in
  expireAccessToken w
  = (set_userStore (Some (Sample.user "at1x" (Some "rt1") None)) w,
     Returned tt).
Proof.
  exact (proj1 (proj1 (expireAccessToken_corrupts_only_the_token
                         (Sample.session
                            (Some (Sample.user "at1" (Some "rt1") None))
                            1000 9000))
                  (Sample.user "at1" (Some "rt1") None) eq_refl)).
Defined.

(** X3 on the same session. *)
Lemma getAccessToken_after_expiry_witness :
  let w := Sample.session (Some (Sample.user "at1" (Some "rt1") None))
             1000 9000 in
  snd (getAccessToken Sample.iframe_configuration Sample.codes
         Sample.factory (Sample.rejecting None)
         (fst (expireAccessToken w)))
  = Returned (Some "at1x").
Proof.
  cbv zeta.
  rewrite (getAccessToken_after_expiry Sample.iframe_configuration
             Sample.codes Sample.factory (Sample.rejecting None)
             (Sample.session (Some (Sample.user "at1" (Some "rt1") None))
                1000 9000)
             (Sample.user "at1" (Some "rt1") None) eq_refl).
  reflexivity.
Defined.

(** X5 at 999 ms and at 1000 ms after the login. *)
Lemma startLogin_guard_threshold_witness :
  let lib := Sample.rejecting None in
  calls (fst (startLogin Sample.codes Sample.factory lib
                (Some Sample.api401) (Sample.session None 1000 1999)))
  = []
  /\ calls (fst (startLogin Sample.codes Sample.factory lib
                   (Some Sample.api401) (Sample.session None 1000 2000)))
     = [EvSigninRedirect {| data_hash := "#company=2" |}].
Proof.
  cbv zeta. split.
  - apply (proj2 (proj1 (proj1 (startLogin_guard_threshold Sample.codes
                    Sample.factory (Sample.rejecting None) Sample.api401
                    (Sample.session None 1000 1999))
                    1000 eq_refl ltac:(discriminate)))).
    reflexivity.
  - apply (proj2 (proj2 (proj1 (startLogin_guard_threshold Sample.codes
                    Sample.factory (Sample.rejecting None) Sample.api401
                    (Sample.session None 1000 2000))
                    1000 eq_refl ltac:(discriminate)))).
    discriminate.
Defined.

(** X6 on a 401 that arrives 500 ms after the login and is retried a
    moment later. *)
Lemma startLogin_retry_after_guard_witness :
  let lib := Sample.rejecting None in
  let w := Sample.session None 1000 1500 in
  let stopped :=
    fst (startLogin Sample.codes Sample.factory lib (Some Sample.api401) w) in
  calls stopped = []
  /\ calls (fst (startLogin Sample.codes Sample.factory lib
                   (Some Sample.api401) (set_clock 1600 stopped)))
     = [EvSigninRedirect {| data_hash := "#company=2" |}].
Proof.
  apply (startLogin_retry_after_guard Sample.codes Sample.factory
           (Sample.rejecting None) Sample.api401
           (Sample.session None 1000 1500) 1000 1600).
  - reflexivity.
  - discriminate.
  - reflexivity.
Defined.

(** X7 on a login started from the fragment ["#company=2"]. *)
Lemma login_round_trip_restores_fragment_witness :
  let returned := Scenario.ada "at1" (Some "rt1") (Some "#company=2") in
  let lib := Sample.library (inl (Sample.failure None)) (inr returned) in
  location_hash
    (fst (handleLoginResponse Sample.iframe_configuration Sample.codes
            Sample.factory lib (Sample.returning true)))
  = "#company=2".
Proof.
  cbv zeta.
  apply (login_round_trip_restores_fragment Sample.iframe_configuration
           Sample.codes Sample.factory
           (Sample.library (inl (Sample.failure None))
              (inr (Scenario.ada "at1" (Some "rt1") (Some "#company=2"))))
           (Sample.session None 1000 9000) (Sample.returning true)
           "s1" "{}"
           (Scenario.ada "at1" (Some "rt1") (Some "#company=2"))).
  - reflexivity.
  - discriminate.
  - reflexivity.
  - discriminate.
  - reflexivity.
  - reflexivity.
Defined.

(** X8 on a freshly opened page. *)
Lemma handleLoginResponse_untouched_iff_witness :
  handleLoginResponse Sample.iframe_configuration Sample.codes Sample.factory
    (Sample.rejecting None) Sample.fresh
  = (Sample.fresh, Returned tt).
Proof.
  apply (proj2 (handleLoginResponse_untouched_iff
                  Sample.iframe_configuration Sample.codes Sample.factory
                  (Sample.rejecting None) Sample.fresh)).
  left. reflexivity.
Defined.

(** X9 on a login response whose exchange is rejected. *)
Lemma handleLoginResponse_marks_login_only_on_return_witness :
  let w' :=
    fst (handleLoginResponse Sample.iframe_configuration Sample.codes
           Sample.factory (Sample.rejecting (Some "invalid_request"))
           (Sample.returning true)) in
  isLoggedIn w' = false /\ loginTime w' = None.
Proof.
  cbv zeta.
  apply (proj1 (handleLoginResponse_marks_login_only_on_return
                  Sample.iframe_configuration Sample.codes Sample.factory
                  (Sample.rejecting (Some "invalid_request"))
                  (Sample.returning true) "s1" "{}"
                  eq_refl ltac:(discriminate) eq_refl ltac:(discriminate))
           (ThrownUIError {| errorCode := "login_response_failed";
                             details := "request failed" |})).
  reflexivity.
Defined.

(** X10 on a login response whose user comes back without state. *)
Lemma handleLoginResponse_stores_before_reading_state_witness :
  let returned := Sample.user "at1" None None in
  let lib := Sample.library (inl (Sample.failure None)) (inr returned) in
  let w' :=
    fst (handleLoginResponse Sample.iframe_configuration Sample.codes
           Sample.factory lib (Sample.returning true)) in
  isLoggedIn w' = false
  /\ getAccessToken Sample.iframe_configuration Sample.codes Sample.factory
       lib w'
     = (w', Returned (Some "at1")).
Proof.
  cbv zeta.
  apply (handleLoginResponse_stores_before_reading_state
           Sample.iframe_configuration Sample.codes Sample.factory
           (Sample.library (inl (Sample.failure None))
              (inr (Sample.user "at1" None None)))
           (Sample.returning true) "s1" "{}" (Sample.user "at1" None None)).
  - reflexivity.
  - discriminate.
  - reflexivity.
  - discriminate.
  - reflexivity.
  - reflexivity.
  - discriminate.
Defined.

(** X11 on a login response that brings Ada Byron's tokens. *)
Lemma session_after_login_response_witness :
  let returned := Scenario.ada "at1" (Some "rt1") (Some "#foo") in
  let lib := Sample.library (inl (Sample.failure None)) (inr returned) in
  let w' :=
    fst (handleLoginResponse Sample.cognito_configuration Sample.codes
           Sample.factory lib (Sample.returning true)) in
  getAccessToken Sample.cognito_configuration Sample.codes Sample.factory
    lib w'
  = (w', Returned (Some "at1"))
  /\ getUserInfo w'
     = (w', Returned (Some {| givenName := "Ada"; familyName := "Byron" |})).
Proof.
  cbv zeta.
  apply (session_after_login_response
           Sample.cognito_configuration Sample.codes Sample.factory
           (Sample.library (inl (Sample.failure None))
              (inr (Scenario.ada "at1" (Some "rt1") (Some "#foo"))))
           (Sample.returning true) "s1" "{}"
           (Scenario.ada "at1" (Some "rt1") (Some "#foo")) "#foo"
           "Ada" "Byron").
  - reflexivity.
  - discriminate.
  - reflexivity.
  - discriminate.
  - reflexivity.
  - reflexivity.
  - discriminate.
  - reflexivity.
  - discriminate.
  - reflexivity.
  - discriminate.
Defined.

(** X12 on a 401 that arrives 50 ms after the login response. *)
Lemma startLogin_right_after_login_response_witness :
  let returned := Scenario.ada "at1" (Some "rt1") (Some "#foo") in
  let lib := Sample.library (inl (Sample.failure None)) (inr returned) in
  let w' :=
    fst (handleLoginResponse Sample.iframe_configuration Sample.codes
           Sample.factory lib (Sample.returning true)) in
  let again :=
    fst (startLogin Sample.codes Sample.factory lib (Some Sample.api401)
           (set_clock 1700000000300 w')) in
  calls again = calls w'
  /\ userStore again = None
  /\ isLoggedIn again = false
  /\ loginTime again = None.
Proof.
  cbv zeta.
  apply (startLogin_right_after_login_response
           Sample.iframe_configuration Sample.codes Sample.factory
           (Sample.library (inl (Sample.failure None))
              (inr (Scenario.ada "at1" (Some "rt1") (Some "#foo"))))
           (Sample.returning true) "s1" "{}"
           (Scenario.ada "at1" (Some "rt1") (Some "#foo")) "#foo"
           Sample.api401 1700000000300).
  - reflexivity.
  - discriminate.
  - reflexivity.
  - discriminate.
  - reflexivity.
  - reflexivity.
  - discriminate.
  - reflexivity.
Defined.

(** X13 on a renewal that is rejected for a technical reason. *)
Lemma token_requests_only_renew_witness :
  let w := Sample.session None 1000 9000 in
  let w' :=
    fst (refreshAccessToken Sample.iframe_configuration Sample.codes
           Sample.factory (Sample.rejecting (Some "server_error")) w) in
  visible_query w' = visible_query w
  /\ visible_fragment w' = visible_fragment w.
Proof.
  cbv zeta.
  destruct (token_requests_only_renew
              Sample.iframe_configuration Sample.codes Sample.factory
              (Sample.rejecting (Some "server_error"))
              (refreshAccessToken Sample.iframe_configuration Sample.codes
                 Sample.factory (Sample.rejecting (Some "server_error")))
              (Sample.session None 1000 9000)
              (or_introl eq_refl))
    as (_ & Hquery & Hfragment & _).
  exact (conj Hquery Hfragment).
Defined.


(** X15 on an iframe renewal that finds no SSO cookie. *)
Lemma no_renewal_after_expected_failure_witness :
  let lib := Sample.rejecting (Some "login_required") in
  let w' :=
    fst (refreshAccessToken Sample.iframe_configuration Sample.codes
           Sample.factory lib (Sample.session None 1000 9000)) in
  refreshAccessToken Sample.iframe_configuration Sample.codes Sample.factory
    lib w'
  = (w', Returned None).
Proof.
  cbv zeta.
  apply (no_renewal_after_expected_failure
           Sample.iframe_configuration Sample.codes Sample.factory
           (Sample.rejecting (Some "login_required"))
           (Sample.session None 1000 9000)
           (Sample.failure (Some "login_required"))).
  - reflexivity.
  - reflexivity.
  - right. split; reflexivity.
Defined.

(** X16 on a Cognito session. *)
Lemma startLogout_cognito_witness :
  snd (fst (startLogout Sample.cognito_configuration Scenario.signout_rejected
              Sample.wrap Scenario.logout_code
              (Sample.session None 1000 9000, [])))
  = [LocationReplaced
       "https://login.example.com/logout?client_id=spa&logout_uri=https://web.example.com/spa/loggedout.html";
     LoggedOutRaised].
Proof.
  apply (startLogout_cognito Sample.cognito_configuration
           Scenario.signout_rejected Sample.wrap Scenario.logout_code
           (Sample.session None 1000 9000) []).
  reflexivity.
Defined.

(** X17 on an end-session redirect that the library rejects. *)
Lemma startLogout_end_session_redirect_witness :
  snd (startLogout Sample.iframe_configuration Scenario.signout_rejected
         Sample.wrap Scenario.logout_code
         (Sample.session None 1000 9000, []))
  = Threw (ThrownUIError
      {| errorCode := "logout_request_failed";
         details := "request failed" |}).
Proof.
  destruct (startLogout_end_session_redirect Sample.iframe_configuration
              Scenario.signout_rejected Sample.wrap Scenario.logout_code
              (Sample.session None 1000 9000) [] eq_refl)
    as (_ & _ & _ & Hrejected).
  exact (Hrejected (Sample.failure None) eq_refl).
Defined.
